(** * Ticketify: ticket store, filter projection and REST controller

    A shallow embedding of the ticket service (services/ticketService.ts),
    the HTTP client (services/api.ts), the [useTickets] hook
    (hooks/useTickets.ts) and the Express controller
    (backend/controllers/ticketController.js), followed by the properties
    of the ticket store that the specification states.

    Modelling conventions.
    - TypeScript interfaces are records; a property that may be missing at
      run time ([undefined]) is an [option]. Request bodies are partial
      tickets: keys outside the [Ticket] interface and ill-typed values are
      not modelled.
    - A timestamp ([Date], or the ISO string the server stores) is the
      number of milliseconds since the epoch, a [Z]; the clock reads of one
      request handler see one instant, [now]. The deadline of a create
      request is a text (the page sends the value of its date field),
      given as the time value [new Date] computes from it: outside the
      range of ECMAScript dates ([Js.validTime]) it is an invalid date, on
      which [toISOString] throws. Stored timestamps and the dates of an
      update are valid dates.
    - Strings are [string]. The Unicode-aware string methods of the
      runtime, [toLowerCase] and [trim], are not defined here: they are the
      methods of the interface [Js.Strings], and the service, the store and
      the page are written over any implementation of it. What a property
      needs to know of them is stated as a law of the interface
      ([Js.LowerCaseOnAscii], [Js.TrimKeepsGraphic]); [Js.asciiStrings] is
      an implementation for texts of ASCII characters, on which the
      examples run.
    - Asynchronous functions are computations over the remote world that
      either resolve with a value or reject with a thrown value. The world
      holds the server's array, so a request runs the controller on it. A
      request either reaches the server and its response reaches the client,
      or the transport fails and [fetch] rejects: before the request reaches
      the server, or after the server has handled it (the response is
      lost).
    - The client pastes an identifier into the path of the request as it
      is, and the server's router cuts the path into segments and decodes
      them. The two agree on an identifier that is one plain path segment
      ([Js.isPathSegment]): the model hands the identifier to the handler
      as given, which is what the code does on such identifiers, and the
      properties that quantify over identifiers given by a caller assume
      it. Stored identifiers are the seeds or generated in base 36.
    - [console.error] calls are left out. *)

From Stdlib Require Import ZArith QArith Ascii String List.
From stdpp Require Import base decidable option list strings pretty.

Local Open Scope string_scope.
Local Open Scope list_scope.

(* ===================================================================== *)
(** ** JavaScript string primitives *)
(* ===================================================================== *)

Module Js.

(** The string methods of the runtime that depend on the Unicode
    character database. The code calls them; their results are whatever
    the runtime computes. *)
Class Strings := {
  (** [s.toLowerCase()] *)
  toLowerCase : string -> string;
  (** [s.trim()] *)
  trim : string -> string
}.

(** The letters A-Z shifted to a-z, every other character kept. *)
Definition lower_char (c : ascii) : ascii :=
  let n := nat_of_ascii c in
  if (65 <=? n)%nat && (n <=? 90)%nat then ascii_of_nat (n + 32) else c.

(** [toLowerCase] on a text of ASCII characters. *)
Fixpoint toLowerCaseAscii (s : string) : string :=
  match s with
  | EmptyString => EmptyString
  | String c s' => String (lower_char c) (toLowerCaseAscii s')
  end.

(** An ASCII character: it is one character of the text, whatever
    surrounds it. *)
Definition isAsciiChar (c : ascii) : bool := (nat_of_ascii c <? 128)%nat.

Fixpoint isAscii (s : string) : bool :=
  match s with
  | EmptyString => true
  | String c s' => isAsciiChar c && isAscii s'
  end.

(** A visible ASCII character (not a space, not a control character). *)
Definition graphic (c : ascii) : bool :=
  let n := nat_of_ascii c in (33 <=? n)%nat && (n <=? 126)%nat.

Fixpoint hasGraphic (s : string) : bool :=
  match s with
  | EmptyString => false
  | String c s' => graphic c || hasGraphic s'
  end.

(** [s.startsWith(p)] *)
Fixpoint startsWith (s p : string) {struct p} : bool :=
  match p, s with
  | EmptyString, _ => true
  | String _ _, EmptyString => false
  | String a p', String b s' => if ascii_dec a b then startsWith s' p' else false
  end.

(** [s.includes(needle)]: [needle] occurs in [s] at some offset. *)
Fixpoint includes (s needle : string) : bool :=
  startsWith s needle ||
  match s with
  | EmptyString => false
  | String _ s' => includes s' needle
  end.

(** The ASCII white space: space, tab, line feed, vertical tab, form feed
    and carriage return. *)
Definition is_space (c : ascii) : bool :=
  let n := nat_of_ascii c in
  (n =? 32)%nat || ((9 <=? n)%nat && (n <=? 13)%nat).

Fixpoint trimStart (s : string) : string :=
  match s with
  | EmptyString => EmptyString
  | String c s' => if is_space c then trimStart s' else s
  end.

Fixpoint rev_string (s acc : string) : string :=
  match s with
  | EmptyString => acc
  | String c s' => rev_string s' (String c acc)
  end.

(** [trim] on a text of ASCII characters. *)
Definition trimAscii (s : string) : string :=
  rev_string (trimStart (rev_string (trimStart s) "")) "".

(** The string methods on texts of ASCII characters. *)
Definition asciiStrings : Strings :=
  {| toLowerCase := toLowerCaseAscii; trim := trimAscii |}.

(** What [toLowerCase] does to ASCII characters: a text of ASCII
    characters is folded letter by letter, and inside any text a run of
    ASCII characters is folded letter by letter and stays in its place. *)
Definition LowerCaseOnAscii (strings : Strings) : Prop :=
  (forall b, isAscii b = true -> toLowerCase b = toLowerCaseAscii b)
  /\ (forall a b c, isAscii b = true ->
        exists a' c',
          toLowerCase (a +:+ b +:+ c) = a' +:+ toLowerCaseAscii b +:+ c').

(** What [trim] leaves: a text with a visible ASCII character is not
    trimmed to the empty string. *)
Definition TrimKeepsGraphic (strings : Strings) : Prop :=
  forall s, hasGraphic s = true -> trim s <> "".

(** [parts.join(sep)] *)
Fixpoint join (sep : string) (parts : list string) : string :=
  match parts with
  | [] => ""
  | [p] => p
  | p :: rest => p +:+ sep +:+ join sep rest
  end.

(** Truthiness of a possibly missing string: [undefined], [null] and the
    empty string are falsy. *)
Definition truthy (o : option string) : bool :=
  match o with
  | Some s => negb (String.eqb s "")
  | None => false
  end.

(** [o || d] on a possibly missing string. *)
Definition or_string (o : option string) (d : string) : string :=
  match o with
  | Some s => if String.eqb s "" then d else s
  | None => d
  end.

(** [o || d] where every present value is truthy (enumeration strings,
    arrays). *)
Definition or_else {A} (o : option A) (d : A) : A :=
  match o with
  | Some a => a
  | None => d
  end.

(** [xs && xs.length > 0] *)
Definition nonEmpty {A} (o : option (list A)) : bool :=
  match o with
  | Some (_ :: _) => true
  | _ => false
  end.

(** [xs.includes(x)] on an array. *)
Definition arrayIncludes {A} `{EqDecision A} (xs : list A) (x : A) : bool :=
  existsb (fun y => bool_decide (y = x)) xs.

(** [n.toString(36)] for a non-negative integer. *)
Definition digit36 (d : N) : ascii :=
  if (d <? 10)%N then ascii_of_N (48 + d) else ascii_of_N (87 + d).

Fixpoint toString36_pos (fuel : nat) (n : N) (acc : string) : string :=
  match fuel with
  | O => acc
  | S fuel' =>
      let acc' := String (digit36 (n mod 36)) acc in
      if (n / 36 =? 0)%N then acc' else toString36_pos fuel' (n / 36) acc'
  end.

Definition toString36 (z : Z) : string :=
  let n := Z.to_N z in
  toString36_pos (S (N.to_nat (N.log2 n))) n "".

(** The time values of valid dates: at most 8.64e15 milliseconds from the
    epoch on either side. [new Date(v)] is an invalid date for any other
    [v], and for a text that is not a date. *)
Definition validTime (v : Z) : bool :=
  ((-8640000000000000 <=? v) && (v <=? 8640000000000000))%Z.

(** A character that a URL path and the router's decoding leave as it is:
    a letter, a digit, [-] or [_]. *)
Definition plain (c : ascii) : bool :=
  let n := nat_of_ascii c in
  ((48 <=? n)%nat && (n <=? 57)%nat)
  || ((65 <=? n)%nat && (n <=? 90)%nat)
  || ((97 <=? n)%nat && (n <=? 122)%nat)
  || (n =? 45)%nat || (n =? 95)%nat.

Fixpoint allPlain (s : string) : bool :=
  match s with
  | EmptyString => true
  | String c s' => plain c && allPlain s'
  end.

(** An identifier that is one plain segment of a path: [/api/tickets/id]
    is routed to the handlers of one ticket with [req.params.id = id]. *)
Definition isPathSegment (id : string) : bool :=
  negb (String.eqb id "") && allPlain id.

End Js.

(* ===================================================================== *)
(** ** Data model (types/ticket.ts) *)
(* ===================================================================== *)

Definition Timestamp := Z.
Bind Scope Z_scope with Timestamp.

Inductive Priority := LOW | MEDIUM | HIGH | URGENT.
Inductive Status := SCHEDULED | IN_PROGRESS | ACTIVE | OVERDUE | COMPLETED.
Inductive CustomerType := ENTERPRISE | SMB | STARTUP.

#[global] Instance Priority_eq_dec : EqDecision Priority.
Proof. solve_decision. Defined.
#[global] Instance Status_eq_dec : EqDecision Status.
Proof. solve_decision. Defined.
#[global] Instance CustomerType_eq_dec : EqDecision CustomerType.
Proof. solve_decision. Defined.

(** [Subtask]; a subtask sent at creation time has neither [id] nor
    [completedAt] ([SubtaskCreateInput]), which is [None] here. *)
Record Subtask := {
  sub_id : option string;
  sub_text : string;
  sub_completed : bool;
  sub_completedAt : option Timestamp;
}.

Record Ticket := {
  id : string;
  ticketId : string;
  title : string;
  description : string;
  deadline : Timestamp;
  priority : Priority;
  category : string;
  status : Status;
  completedAt : option Timestamp;
  createdAt : Timestamp;
  updatedAt : Timestamp;
  csamName : string;
  tpid : string;
  agreementId : string;
  customerName : string;
  customerType : CustomerType;
  notes : list string;
  subtasks : list Subtask;
  assignedTo : option string;
  tags : list string;
}.

(** [TicketCreateInput], as the create path reads it: every property is
    tested for presence before use, so every property may be missing. *)
Record TicketCreateInput := {
  c_ticketId : option string;
  c_title : option string;
  c_description : option string;
  c_deadline : option Timestamp;
  c_priority : option Priority;
  c_category : option string;
  c_status : option Status;
  c_csamName : option string;
  c_tpid : option string;
  c_agreementId : option string;
  c_customerName : option string;
  c_customerType : option CustomerType;
  c_notes : option (list string);
  c_subtasks : option (list Subtask);
  c_assignedTo : option string;
  c_tags : option (list string);
}.

(** [TicketUpdateInput], and the body of a PUT request: a partial ticket.
    A property is [None] when the key is absent; [completedAt] and
    [assignedTo] may be present with the value [null]. The type of the
    client excludes [createdAt], the server accepts any body, so the key is
    part of the model. *)
Record TicketUpdateInput := {
  u_id : option string;
  u_ticketId : option string;
  u_title : option string;
  u_description : option string;
  u_deadline : option Timestamp;
  u_priority : option Priority;
  u_category : option string;
  u_status : option Status;
  u_completedAt : option (option Timestamp);
  u_createdAt : option Timestamp;
  u_updatedAt : option Timestamp;
  u_csamName : option string;
  u_tpid : option string;
  u_agreementId : option string;
  u_customerName : option string;
  u_customerType : option CustomerType;
  u_notes : option (list string);
  u_subtasks : option (list Subtask);
  u_assignedTo : option (option string);
  u_tags : option (list string);
}.

(** [TicketFilters] *)
Record TicketFilters := {
  f_status : option (list Status);
  f_priority : option (list Priority);
  f_category : option (list string);
  f_csamName : option (list string);
  f_customerName : option string;
  f_assignedTo : option string;
  f_tags : option (list string);
  f_search : option string;
}.

(** A filter object without any field. *)
Definition noFilters : TicketFilters :=
  {| f_status := None; f_priority := None; f_category := None;
     f_csamName := None; f_customerName := None; f_assignedTo := None;
     f_tags := None; f_search := None |}.

(** Field updates used by the object spreads of the source. *)
Definition stamp (t : Ticket) (updated : Timestamp) (completed : option Timestamp) : Ticket :=
  {| id := id t; ticketId := ticketId t; title := title t;
     description := description t; deadline := deadline t;
     priority := priority t; category := category t; status := status t;
     completedAt := completed; createdAt := createdAt t;
     updatedAt := updated; csamName := csamName t; tpid := tpid t;
     agreementId := agreementId t; customerName := customerName t;
     customerType := customerType t; notes := notes t;
     subtasks := subtasks t; assignedTo := assignedTo t; tags := tags t |}.

(** [{ ...t, ...u }]: every key present in [u] replaces the one of [t]. *)
Definition spread (t : Ticket) (u : TicketUpdateInput) : Ticket :=
  {| id := Js.or_else (u_id u) (id t);
     ticketId := Js.or_else (u_ticketId u) (ticketId t);
     title := Js.or_else (u_title u) (title t);
     description := Js.or_else (u_description u) (description t);
     deadline := Js.or_else (u_deadline u) (deadline t);
     priority := Js.or_else (u_priority u) (priority t);
     category := Js.or_else (u_category u) (category t);
     status := Js.or_else (u_status u) (status t);
     completedAt := Js.or_else (u_completedAt u) (completedAt t);
     createdAt := Js.or_else (u_createdAt u) (createdAt t);
     updatedAt := Js.or_else (u_updatedAt u) (updatedAt t);
     csamName := Js.or_else (u_csamName u) (csamName t);
     tpid := Js.or_else (u_tpid u) (tpid t);
     agreementId := Js.or_else (u_agreementId u) (agreementId t);
     customerName := Js.or_else (u_customerName u) (customerName t);
     customerType := Js.or_else (u_customerType u) (customerType t);
     notes := Js.or_else (u_notes u) (notes t);
     subtasks := Js.or_else (u_subtasks u) (subtasks t);
     assignedTo := Js.or_else (u_assignedTo u) (assignedTo t);
     tags := Js.or_else (u_tags u) (tags t) |}.

(** [delete u.id] and [delete u.createdAt] *)
Definition delete_id (u : TicketUpdateInput) : TicketUpdateInput :=
  {| u_id := None; u_ticketId := u_ticketId u; u_title := u_title u;
     u_description := u_description u; u_deadline := u_deadline u;
     u_priority := u_priority u; u_category := u_category u;
     u_status := u_status u; u_completedAt := u_completedAt u;
     u_createdAt := u_createdAt u; u_updatedAt := u_updatedAt u;
     u_csamName := u_csamName u; u_tpid := u_tpid u;
     u_agreementId := u_agreementId u; u_customerName := u_customerName u;
     u_customerType := u_customerType u; u_notes := u_notes u;
     u_subtasks := u_subtasks u; u_assignedTo := u_assignedTo u;
     u_tags := u_tags u |}.

Definition delete_createdAt (u : TicketUpdateInput) : TicketUpdateInput :=
  {| u_id := u_id u; u_ticketId := u_ticketId u; u_title := u_title u;
     u_description := u_description u; u_deadline := u_deadline u;
     u_priority := u_priority u; u_category := u_category u;
     u_status := u_status u; u_completedAt := u_completedAt u;
     u_createdAt := None; u_updatedAt := u_updatedAt u;
     u_csamName := u_csamName u; u_tpid := u_tpid u;
     u_agreementId := u_agreementId u; u_customerName := u_customerName u;
     u_customerType := u_customerType u; u_notes := u_notes u;
     u_subtasks := u_subtasks u; u_assignedTo := u_assignedTo u;
     u_tags := u_tags u |}.

(* ===================================================================== *)
(** ** HTTP envelope and the remote world *)
(* ===================================================================== *)

(** [ApiResponse<T>]: the [{success, data, error}] envelope. *)
Record ApiResponse (A : Type) := {
  success : bool;
  data : option A;
  error : option string;
  message : option string;
}.
Arguments success {A} _.
Arguments data {A} _.
Arguments error {A} _.
Arguments message {A} _.

Record HttpResponse (A : Type) := {
  statusCode : nat;
  json : ApiResponse A;
}.
Arguments statusCode {A} _.
Arguments json {A} _.

(** What a request handler reads from its environment: the clock behind
    [new Date()] and [Date.now()], and the digits produced by
    [Math.random().toString(36).substr(2)]. *)
Record Env := {
  now : Timestamp;
  random : string;
}.

(** The requests of the REST interface (routes/tickets.js). *)
Inductive Request :=
  | GET_tickets
  | GET_ticket (ticket_id : string)
  | POST_ticket (body : TicketCreateInput)
  | PUT_ticket (ticket_id : string) (body : TicketUpdateInput)
  | DELETE_ticket (ticket_id : string).

Record DeleteMessage := { deleted_message : string }.

(* ===================================================================== *)
(** ** The controller (backend/controllers/ticketController.js) *)
(* ===================================================================== *)

Module Controller.

(** A handler reads the environment and the [tickets] array, answers and
    leaves the new array. Every handler is a [try] whose [catch] answers
    500. On the request bodies modelled, the one expression of a [try]
    block that throws is [new Date(deadline).toISOString()] in
    [createTicket]; the [catch] of the other handlers is not reached. *)
Definition Handler (A : Type) : Type :=
  Env -> list Ticket -> HttpResponse A * list Ticket.

Definition respond {A} (code : nat) (d : A) : HttpResponse A :=
  {| statusCode := code;
     json := {| success := true; data := Some d; error := None;
                message := None |} |}.

Definition respondError {A} (code : nat) (msg : string) : HttpResponse A :=
  {| statusCode := code;
     json := {| success := false; data := None; error := Some msg;
                message := None |} |}.

(** The mock in-memory ticket data the module starts with: the shape of
    one entry, the five entries, and the array. *)
Definition mkTicket (i code ttl descr : string) (p : Priority) (s : Status)
    (cat : string) (dl : Timestamp) (done : option Timestamp)
    (created updated : Timestamp) (csam tp agr cust : string)
    (ct : CustomerType) (who : option string) (tgs : list string) : Ticket :=
  {| id := i; ticketId := code; title := ttl; description := descr;
     deadline := dl; priority := p; category := cat; status := s;
     completedAt := done; createdAt := created; updatedAt := updated;
     csamName := csam; tpid := tp; agreementId := agr;
     customerName := cust; customerType := ct; notes := [];
     subtasks := []; assignedTo := who; tags := tgs |}.

Definition ticket1 : Ticket :=
  mkTicket "1" "TCK-001" "Implement user authentication"
    "Add login and registration functionality" HIGH SCHEDULED "Feature"
    1767139200000 None 1761955200000 1761955200000
    "John Doe" "TP-001" "AGR-001" "Acme Corp" ENTERPRISE
    (Some "user-1") ["auth"; "security"].

Definition ticket2 : Ticket :=
  mkTicket "2" "TCK-002" "Fix payment processing bug"
    "Payment gateway integration issue" URGENT IN_PROGRESS "Bug"
    1763596800000 None 1762300800000 1762732800000
    "Jane Smith" "TP-002" "AGR-002" "Tech Startup" STARTUP
    (Some "user-2") ["payment"; "bug"].

Definition ticket3 : Ticket :=
  mkTicket "3" "TCK-003" "Design new dashboard UI"
    "Create modern dashboard interface" MEDIUM ACTIVE "Design"
    1765756800000 None 1762560000000 1762905600000
    "Bob Johnson" "TP-003" "AGR-003" "SMB Inc" SMB
    None ["design"; "ui"].

Definition ticket4 : Ticket :=
  mkTicket "4" "TCK-004" "Update API documentation"
    "Document all API endpoints" LOW OVERDUE "Documentation"
    1762732800000 None 1760918400000 1762732800000
    "Alice Williams" "TP-004" "AGR-004" "Dev Corp" ENTERPRISE
    (Some "user-3") ["docs"; "api"].

Definition ticket5 : Ticket :=
  mkTicket "5" "TCK-005" "Setup CI/CD pipeline"
    "Configure automated deployment" HIGH COMPLETED "DevOps"
    1763164800000 (Some 1763078400000%Z) 1761350400000 1763078400000
    "Charlie Brown" "TP-005" "AGR-005" "Cloud Services" ENTERPRISE
    (Some "user-1") ["ci-cd"; "devops"].

(** [let tickets = [...]] as the module is loaded. *)
Definition tickets : list Ticket :=
  [ticket1; ticket2; ticket3; ticket4; ticket5].

(** [Date.now().toString(36) + Math.random().toString(36).substr(2)] *)
Definition generateId (e : Env) : string :=
  Js.toString36 (now e) +:+ random e.

(** GET /api/tickets *)
Definition getTickets : Handler (list Ticket) :=
  fun _ tickets => (respond 200 tickets, tickets).

(** GET /api/tickets/:id *)
Definition getTicketById (id' : string) : Handler Ticket :=
  fun _ tickets =>
    match List.find (fun t => String.eqb (id t) id') tickets with
    | None => (respondError 404 "Ticket not found", tickets)
    | Some ticket => (respond 200 ticket, tickets)
    end.

(** [const newTicket = { id: generateId(), ticketId, title, ... }] *)
Definition newTicket (body : TicketCreateInput) (e : Env) : Ticket :=
  {| id := generateId e;
     ticketId := Js.or_string (c_ticketId body) "";
     title := Js.or_string (c_title body) "";
     description := Js.or_string (c_description body) "";
     priority := Js.or_else (c_priority body) MEDIUM;
     status := Js.or_else (c_status body) SCHEDULED;
     category := Js.or_string (c_category body) "General";
     deadline := Js.or_else (c_deadline body) (now e);
     completedAt := None;
     createdAt := now e;
     updatedAt := now e;
     csamName := Js.or_string (c_csamName body) "";
     tpid := Js.or_string (c_tpid body) "";
     agreementId := Js.or_string (c_agreementId body) "";
     customerName := Js.or_string (c_customerName body) "";
     customerType := Js.or_else (c_customerType body) SMB;
     notes := Js.or_else (c_notes body) [];
     subtasks := Js.or_else (c_subtasks body) [];
     assignedTo :=
       if Js.truthy (c_assignedTo body) then c_assignedTo body else None;
     tags := Js.or_else (c_tags body) [] |}.

(** [new Date(deadline).toISOString()] throws a [RangeError] on an
    invalid date; a missing deadline is replaced by the clock, which is a
    valid date. *)
Definition deadlineThrows (body : TicketCreateInput) : bool :=
  match c_deadline body with
  | Some v => negb (Js.validTime v)
  | None => false
  end.

(** POST /api/tickets. The object literal is evaluated before the push, so
    an exception in it leaves the array as it was and is answered by the
    [catch]. *)
Definition createTicket (body : TicketCreateInput) : Handler Ticket :=
  fun e tickets =>
    (* Validate required fields *)
    if negb (Js.truthy (c_ticketId body)) || negb (Js.truthy (c_title body))
    then (respondError 400 "Ticket ID and title are required", tickets)
    else
      (* Check if ticketId already exists *)
      let ticketId' := Js.or_string (c_ticketId body) "" in
      match List.find (fun t => String.eqb (ticketId t) ticketId') tickets with
      | Some existingTicket =>
          (respondError 400 "Ticket ID already exists", tickets)
      | None =>
          if deadlineThrows body
          then (* catch (error) *)
            (respondError 500 "Failed to create ticket", tickets)
          else
            (* Create new ticket *)
            (respond 201 (newTicket body e), tickets ++ [newTicket body e])
      end.

(** [const updatedTicket = { ...tickets[ticketIndex], ...updateData,
    updatedAt: ..., completedAt: ... }] *)
Definition updatedTicket (stored : Ticket) (updateData : TicketUpdateInput)
    (e : Env) : Ticket :=
  stamp (spread stored updateData)
    (now e)
    (* Set completedAt if status is COMPLETED *)
    (if bool_decide (u_status updateData = Some COMPLETED)
     then Some (now e)
     else completedAt stored).

(** PUT /api/tickets/:id *)
Definition updateTicket (id' : string) (body : TicketUpdateInput) : Handler Ticket :=
  fun e tickets =>
    match list_find (fun t => id t = id') tickets with
    | None => (respondError 404 "Ticket not found", tickets)
    | Some (ticketIndex, stored) =>
        (* Don't allow updating id, createdAt *)
        let updateData := delete_createdAt (delete_id body) in
        (* Update ticket *)
        (respond 200 (updatedTicket stored updateData e),
         <[ticketIndex := updatedTicket stored updateData e]> tickets)
    end.

(** DELETE /api/tickets/:id *)
Definition deleteTicket (id' : string) : Handler DeleteMessage :=
  fun _ tickets =>
    match list_find (fun t => id t = id') tickets with
    | None => (respondError 404 "Ticket not found", tickets)
    | Some (ticketIndex, _) =>
        (respond 200 {| deleted_message := "Ticket deleted successfully" |},
         delete ticketIndex tickets)
    end.

(** The router: which handler serves which request, and what it sends. *)
Definition payload (r : Request) : Type :=
  match r with
  | GET_tickets => list Ticket
  | GET_ticket _ => Ticket
  | POST_ticket _ => Ticket
  | PUT_ticket _ _ => Ticket
  | DELETE_ticket _ => DeleteMessage
  end.

Definition router (r : Request) : Handler (payload r) :=
  match r with
  | GET_tickets => getTickets
  | GET_ticket i => getTicketById i
  | POST_ticket b => createTicket b
  | PUT_ticket i b => updateTicket i b
  | DELETE_ticket i => deleteTicket i
  end.

End Controller.

(* ===================================================================== *)
(** ** Asynchronous computations of the client *)
(* ===================================================================== *)

(** A thrown value: an [Error] with its message, or anything else. *)
Inductive Thrown :=
  | Error (msg : string)
  | NotAnError.

Inductive Outcome (A : Type) :=
  | Resolved (a : A)
  | Rejected (e : Thrown).
Arguments Resolved {A} _.
Arguments Rejected {A} _.

(** What the client runs against: the server's [tickets] array and
    environment, whether the transport works ([online]) and, when it does
    not, whether a request still reaches the server and only its response
    is lost ([arrives]), the requests issued so far and the clock of the
    browser. *)
Record World := {
  server : list Ticket;
  env : Env;
  online : bool;
  arrives : bool;
  requests : list Request;
  clientClock : Timestamp;
}.

(** No response is lost: a request that the server handles is answered to
    the client. *)
Definition answered (w : World) : bool := online w || negb (arrives w).

Definition Async (A : Type) : Type := World -> Outcome A * World.

#[global] Instance Async_ret : MRet Async :=
  fun A a w => (Resolved a, w).

#[global] Instance Async_bind : MBind Async :=
  fun A B k m w =>
    match m w with
    | (Resolved a, w') => k a w'
    | (Rejected e, w') => (Rejected e, w')
    end.

Definition throw {A} (e : Thrown) : Async A :=
  fun w => (Rejected e, w).

(** [try { body } catch (error) { handler }] *)
Definition try_catch {A} (body : Async A) (handler : Thrown -> Async A) : Async A :=
  fun w =>
    match body w with
    | (Resolved a, w') => (Resolved a, w')
    | (Rejected e, w') => handler e w'
    end.

(** The world once request [r] has been issued and the server's array has
    become [tickets']. *)
Definition sent (r : Request) (tickets' : list Ticket) (w : World) : World :=
  {| server := tickets'; env := env w; online := online w;
     arrives := arrives w;
     requests := requests w ++ [r]; clientClock := clientClock w |}.

(** [new Date()] in the browser. *)
Definition newDate : Async Timestamp :=
  fun w => (Resolved (clientClock w), w).

(* ===================================================================== *)
(** ** The HTTP client (services/api.ts) *)
(* ===================================================================== *)

Module Api.

(** [fetch(url, config)]: the request is issued; when the transport works
    the router serves it on the server's array and the promise resolves
    with the response; otherwise the promise rejects with a [TypeError],
    the request having been served or not. The identifier of the request
    is the one the handler reads from [req.params]: this is what the URL
    and the router make of an identifier that is one plain path segment
    ([Js.isPathSegment]). *)
Definition fetch (r : Request) : Async (HttpResponse (Controller.payload r)) :=
  fun w =>
    if online w then
      let '(response, tickets') := Controller.router r (env w) (server w) in
      (Resolved response, sent r tickets' w)
    else if arrives w then
      let '(_, tickets') := Controller.router r (env w) (server w) in
      (Rejected (Error "Failed to fetch"), sent r tickets' w)
    else
      (Rejected (Error "Failed to fetch"), sent r (server w) w).

(** [response.ok] *)
Definition ok {A} (response : HttpResponse A) : bool :=
  (200 <=? statusCode response)%nat && (statusCode response <=? 299)%nat.

Definition handleResponse {A} (response : HttpResponse A) : Async (ApiResponse A) :=
  if negb (ok response) then
    let errorData := json response in
    throw (Error
      (if Js.truthy (message errorData) then Js.or_string (message errorData) ""
       else if Js.truthy (error errorData) then Js.or_string (error errorData) ""
       else "HTTP error! status: " +:+ pretty (statusCode response)))
  else mret (json response).

Definition apiRequest (r : Request) : Async (ApiResponse (Controller.payload r)) :=
  response ← try_catch (fetch r)
    (fun error =>
       match error with
       | Error _ => throw error
       | NotAnError => throw (Error "An unknown error occurred during API request")
       end);
  handleResponse response.

Definition fetchTickets : Async (list Ticket) :=
  try_catch
    (response ← apiRequest GET_tickets;
     mret (Js.or_else (data response) []))
    throw.

Definition fetchTicketById (ticketId' : string) : Async Ticket :=
  try_catch
    (response ← apiRequest (GET_ticket ticketId');
     match data response with
     | None => throw (Error "Ticket not found")
     | Some t => mret t
     end)
    throw.

Definition createTicket (ticketData : TicketCreateInput) : Async Ticket :=
  try_catch
    (response ← apiRequest (POST_ticket ticketData);
     match data response with
     | None => throw (Error "Failed to create ticket")
     | Some t => mret t
     end)
    throw.

(** [const { id, ...updateData } = ticketData]: the identifier goes into
    the path, the rest into the body. *)
Definition updateTicket (ticketData : TicketUpdateInput) : Async Ticket :=
  try_catch
    (let id' := Js.or_else (u_id ticketData) "undefined" in
     let updateData := delete_id ticketData in
     response ← apiRequest (PUT_ticket id' updateData);
     match data response with
     | None => throw (Error "Failed to update ticket")
     | Some t => mret t
     end)
    throw.

Definition deleteTicket (ticketId' : string) : Async unit :=
  try_catch
    (_ ← apiRequest (DELETE_ticket ticketId');
     mret tt)
    throw.

End Api.

(* ===================================================================== *)
(** ** The ticket service (services/ticketService.ts) *)
(* ===================================================================== *)

Module TicketService.

(** The predicate of [tickets.filter(...)] in [fetchTickets]. *)
Definition keep `{Js.Strings} (filters : TicketFilters) (ticket : Ticket) : bool :=
  (* Filter by status *)
  if Js.nonEmpty (f_status filters)
     && negb (Js.arrayIncludes (Js.or_else (f_status filters) []) (status ticket))
  then false
  (* Filter by priority *)
  else if Js.nonEmpty (f_priority filters)
     && negb (Js.arrayIncludes (Js.or_else (f_priority filters) []) (priority ticket))
  then false
  (* Filter by category *)
  else if Js.nonEmpty (f_category filters)
     && negb (Js.arrayIncludes (Js.or_else (f_category filters) []) (category ticket))
  then false
  (* Filter by CSAM name *)
  else if Js.nonEmpty (f_csamName filters)
     && negb (Js.arrayIncludes (Js.or_else (f_csamName filters) []) (csamName ticket))
  then false
  (* Filter by customer name (partial match) *)
  else if Js.truthy (f_customerName filters)
     && negb (Js.includes (Js.toLowerCase (customerName ticket))
                (Js.toLowerCase (Js.or_string (f_customerName filters) "")))
  then false
  (* Filter by assigned user *)
  else if Js.truthy (f_assignedTo filters)
     && negb (bool_decide (assignedTo ticket = f_assignedTo filters))
  then false
  (* Filter by tags *)
  else if Js.nonEmpty (f_tags filters)
     && negb (existsb (fun tag => Js.arrayIncludes (tags ticket) tag)
                (Js.or_else (f_tags filters) []))
  then false
  (* Full-text search *)
  else if Js.truthy (f_search filters)
     && (let searchLower := Js.toLowerCase (Js.or_string (f_search filters) "") in
         let searchableText :=
           Js.toLowerCase
             (Js.join " " [title ticket; description ticket; ticketId ticket;
                           customerName ticket; csamName ticket]) in
         negb (Js.includes searchableText searchLower))
  then false
  else true.

Definition fetchTickets `{Js.Strings} (filters : option TicketFilters) : Async (list Ticket) :=
  try_catch
    (tickets ← Api.fetchTickets;
     match filters with
     | None => mret tickets
     | Some filters => mret (List.filter (keep filters) tickets)
     end)
    throw.

Definition fetchTicketById (ticketId' : string) : Async Ticket :=
  try_catch (Api.fetchTicketById ticketId') throw.

(** [{ ...ticketData, priority: ..., status: ..., notes: ..., tags: ...,
    subtasks: ... }] *)
Definition withDefaults (ticketData : TicketCreateInput) : TicketCreateInput :=
  {| c_ticketId := c_ticketId ticketData;
     c_title := c_title ticketData;
     c_description := c_description ticketData;
     c_deadline := c_deadline ticketData;
     c_priority := Some (Js.or_else (c_priority ticketData) MEDIUM);
     c_category := c_category ticketData;
     c_status := Some (Js.or_else (c_status ticketData) SCHEDULED);
     c_csamName := c_csamName ticketData;
     c_tpid := c_tpid ticketData;
     c_agreementId := c_agreementId ticketData;
     c_customerName := c_customerName ticketData;
     c_customerType := c_customerType ticketData;
     c_notes := Some (Js.or_else (c_notes ticketData) []);
     c_subtasks := Some (Js.or_else (c_subtasks ticketData) []);
     c_assignedTo := c_assignedTo ticketData;
     c_tags := Some (Js.or_else (c_tags ticketData) []) |}.

(** [!s || s.trim().length === 0] *)
Definition blank `{Js.Strings} (s : option string) : bool :=
  negb (Js.truthy s)
  || (String.length (Js.trim (Js.or_string s "")) =? 0)%nat.

Definition createTicket `{Js.Strings} (ticketData : TicketCreateInput) : Async Ticket :=
  try_catch
    ((* Validate required fields *)
     if blank (c_title ticketData) then
       throw (Error "Ticket title is required")
     else if blank (c_ticketId ticketData) then
       throw (Error "Ticket ID is required")
     else
       (* Set default values if not provided *)
       let ticketWithDefaults := withDefaults ticketData in
       Api.createTicket ticketWithDefaults)
    throw.

Definition updateTicket (ticketData : TicketUpdateInput) : Async Ticket :=
  try_catch
    (if negb (Js.truthy (u_id ticketData)) then
       throw (Error "Ticket ID is required for update")
     else Api.updateTicket ticketData)
    throw.

(** [{ id: ticketId, status, completedAt: ... }] and the like. *)
Definition statusInput (ticketId' : string) (s : Status)
    (hint : option Timestamp) : TicketUpdateInput :=
  {| u_id := Some ticketId'; u_ticketId := None; u_title := None;
     u_description := None; u_deadline := None; u_priority := None;
     u_category := None; u_status := Some s;
     u_completedAt := match hint with Some d => Some (Some d) | None => None end;
     u_createdAt := None; u_updatedAt := None; u_csamName := None;
     u_tpid := None; u_agreementId := None; u_customerName := None;
     u_customerType := None; u_notes := None; u_subtasks := None;
     u_assignedTo := None; u_tags := None |}.

Definition updateTicketStatus (ticketId' : string) (s : Status) : Async Ticket :=
  try_catch
    (hint ← (if bool_decide (s = COMPLETED)
             then d ← newDate; mret (Some d)
             else mret None);
     updateTicket (statusInput ticketId' s hint))
    throw.

Definition deleteTicket (ticketId' : string) : Async unit :=
  try_catch (Api.deleteTicket ticketId') throw.

Definition getTicketsByStatus `{Js.Strings} (s : Status) : Async (list Ticket) :=
  fetchTickets
    (Some {| f_status := Some [s]; f_priority := None; f_category := None;
             f_csamName := None; f_customerName := None;
             f_assignedTo := None; f_tags := None; f_search := None |}).

(** [{ id: ticketId, priority }] *)
Definition priorityInput (ticketId' : string) (p : Priority) : TicketUpdateInput :=
  {| u_id := Some ticketId'; u_ticketId := None; u_title := None;
     u_description := None; u_deadline := None; u_priority := Some p;
     u_category := None; u_status := None; u_completedAt := None;
     u_createdAt := None; u_updatedAt := None; u_csamName := None;
     u_tpid := None; u_agreementId := None; u_customerName := None;
     u_customerType := None; u_notes := None; u_subtasks := None;
     u_assignedTo := None; u_tags := None |}.

Definition updateTicketPriority (ticketId' : string) (p : Priority) : Async Ticket :=
  try_catch (updateTicket (priorityInput ticketId' p)) throw.

(** [{ id: ticketId, assignedTo: userId }], with [userId] a string or
    [null]. *)
Definition assigneeInput (ticketId' : string) (userId : option string) : TicketUpdateInput :=
  {| u_id := Some ticketId'; u_ticketId := None; u_title := None;
     u_description := None; u_deadline := None; u_priority := None;
     u_category := None; u_status := None; u_completedAt := None;
     u_createdAt := None; u_updatedAt := None; u_csamName := None;
     u_tpid := None; u_agreementId := None; u_customerName := None;
     u_customerType := None; u_notes := None; u_subtasks := None;
     u_assignedTo := Some userId; u_tags := None |}.

Definition assignTicket (ticketId' userId : string) : Async Ticket :=
  try_catch (updateTicket (assigneeInput ticketId' (Some userId))) throw.

Definition unassignTicket (ticketId' : string) : Async Ticket :=
  try_catch (updateTicket (assigneeInput ticketId' None)) throw.

Definition getTicketsByPriority `{Js.Strings} (p : Priority) : Async (list Ticket) :=
  fetchTickets
    (Some {| f_status := None; f_priority := Some [p]; f_category := None;
             f_csamName := None; f_customerName := None;
             f_assignedTo := None; f_tags := None; f_search := None |}).

(** [getOverdueTickets]: the tickets fetched with the status filter
    [['OVERDUE']], filtered by
    [new Date(ticket.deadline) < new Date() && ticket.status !== 'COMPLETED']. *)
Definition getOverdueTickets `{Js.Strings} : Async (list Ticket) :=
  tickets ← fetchTickets
    (Some {| f_status := Some [OVERDUE]; f_priority := None; f_category := None;
             f_csamName := None; f_customerName := None;
             f_assignedTo := None; f_tags := None; f_search := None |});
  today ← newDate;
  mret (List.filter
          (fun ticket =>
             (deadline ticket <? today)%Z
             && negb (bool_decide (status ticket = COMPLETED)))
          tickets).

End TicketService.

(* ===================================================================== *)
(** ** The store (hooks/useTickets.ts) *)
(* ===================================================================== *)

Module UseTickets.

(** The three [useState] cells of the hook. *)
Record State := {
  tickets : list Ticket;
  loading : bool;
  lastError : option string;
}.

Definition initial : State :=
  {| tickets := []; loading := true; lastError := None |}.

Definition setTickets (f : list Ticket -> list Ticket) (st : State) : State :=
  {| tickets := f (tickets st); loading := loading st; lastError := lastError st |}.
Definition setLoading (b : bool) (st : State) : State :=
  {| tickets := tickets st; loading := b; lastError := lastError st |}.
Definition setError (e : option string) (st : State) : State :=
  {| tickets := tickets st; loading := loading st; lastError := e |}.

(** [err instanceof Error ? err.message : fallback] *)
Definition errorMessage (err : Thrown) (fallback : string) : string :=
  match err with
  | Error msg => msg
  | NotAnError => fallback
  end.

(** A callback of the hook: it runs on the cells and the world, and its
    promise always resolves, with a value of type [A]. *)
Definition Callback (A : Type) : Type := State -> World -> A * State * World.

(** [refreshTickets], of type [() => Promise<void>] *)
Definition fetchTickets `{Js.Strings} : Callback unit :=
  fun st w =>
    let st := setError None (setLoading true st) in
    match TicketService.fetchTickets None w with
    | (Resolved fetchedTickets, w') =>
        (tt, setLoading false (setTickets (fun _ => fetchedTickets) st), w')
    | (Rejected err, w') =>
        (tt, setLoading false
               (setError (Some (errorMessage err "Failed to fetch tickets")) st), w')
    end.

Definition addTicket `{Js.Strings} (ticketData : TicketCreateInput) : Callback (option Ticket) :=
  fun st w =>
    let st := setError None st in
    match TicketService.createTicket ticketData w with
    | (Resolved newTicket, w') =>
        (Some newTicket,
         setTickets (fun prevTickets => prevTickets ++ [newTicket]) st, w')
    | (Rejected err, w') =>
        (None, setError (Some (errorMessage err "Failed to create ticket")) st, w')
    end.

Definition updateTicket (ticketData : TicketUpdateInput) : Callback (option Ticket) :=
  fun st w =>
    let st := setError None st in
    match TicketService.updateTicket ticketData w with
    | (Resolved updatedTicket, w') =>
        (Some updatedTicket,
         setTickets
           (fun prevTickets =>
              List.map (fun ticket =>
                          if String.eqb (id ticket) (id updatedTicket)
                          then updatedTicket else ticket)
                       prevTickets) st, w')
    | (Rejected err, w') =>
        (None, setError (Some (errorMessage err "Failed to update ticket")) st, w')
    end.

Definition deleteTicket (ticketId' : string) : Callback bool :=
  fun st w =>
    let st := setError None st in
    match TicketService.deleteTicket ticketId' w with
    | (Resolved _, w') =>
        (true,
         setTickets
           (fun prevTickets =>
              List.filter (fun ticket => negb (String.eqb (id ticket) ticketId'))
                          prevTickets) st, w')
    | (Rejected err, w') =>
        (false, setError (Some (errorMessage err "Failed to delete ticket")) st, w')
    end.

Definition refreshTickets `{Js.Strings} : Callback unit := fetchTickets.

End UseTickets.

(* ===================================================================== *)
(** ** The board (components/features/kanban-board/KanbanBoard.tsx) *)
(* ===================================================================== *)

Module KanbanBoard.

(** All possible ticket statuses for Kanban columns. *)
Definition KANBAN_STATUSES : list Status :=
  [SCHEDULED; IN_PROGRESS; ACTIVE; OVERDUE; COMPLETED].

(** [tickets.filter((ticket) => ticket.status === status)] *)
Definition getTicketsByStatus (tickets : list Ticket) (s : Status) : list Ticket :=
  List.filter (fun ticket => bool_decide (status ticket = s)) tickets.

(** [{ ...ticket, status: newStatus, updatedAt: new Date(),
    completedAt: newStatus === 'COMPLETED' ? new Date() : ticket.completedAt }] *)
Definition moved (ticket : Ticket) (newStatus : Status) (today : Timestamp) : Ticket :=
  {| id := id ticket; ticketId := ticketId ticket; title := title ticket;
     description := description ticket; deadline := deadline ticket;
     priority := priority ticket; category := category ticket;
     status := newStatus;
     completedAt := if bool_decide (newStatus = COMPLETED)
                    then Some today else completedAt ticket;
     createdAt := createdAt ticket; updatedAt := today;
     csamName := csamName ticket; tpid := tpid ticket;
     agreementId := agreementId ticket; customerName := customerName ticket;
     customerType := customerType ticket; notes := notes ticket;
     subtasks := subtasks ticket; assignedTo := assignedTo ticket;
     tags := tags ticket |}.

(** [handleDrop]: the next [tickets] state of the board, and the calls it
    makes to the [onTicketUpdate] prop (when the prop is given), one per
    ticket it moves. [today] is the browser's clock. *)
Definition handleDrop (ticketId' : string) (newStatus : Status)
    (today : Timestamp) (prevTickets : list Ticket)
    : list Ticket * list (string * Status) :=
  (List.map
     (fun ticket =>
        if String.eqb (id ticket) ticketId'
        then moved ticket newStatus today
        else ticket)
     prevTickets,
   List.flat_map
     (fun ticket =>
        if String.eqb (id ticket) ticketId'
        then [(ticketId', newStatus)]
        else [])
     prevTickets).

(** The columns the board renders: one per status, in order, with the
    tickets of that status. *)
Definition columns (tickets : list Ticket) : list (Status * list Ticket) :=
  List.map (fun s => (s, getTicketsByStatus tickets s)) KANBAN_STATUSES.

End KanbanBoard.

(* ===================================================================== *)
(** ** The dashboard page (pages/Dashboard.tsx) *)
(* ===================================================================== *)

Module Dashboard.

(** [{ id: ticketId, status: newStatus }] *)
Definition statusOnly (ticketId' : string) (newStatus : Status) : TicketUpdateInput :=
  {| u_id := Some ticketId'; u_ticketId := None; u_title := None;
     u_description := None; u_deadline := None; u_priority := None;
     u_category := None; u_status := Some newStatus; u_completedAt := None;
     u_createdAt := None; u_updatedAt := None; u_csamName := None;
     u_tpid := None; u_agreementId := None; u_customerName := None;
     u_customerType := None; u_notes := None; u_subtasks := None;
     u_assignedTo := None; u_tags := None |}.

(** The [useState] cells of the page. *)
Record State := {
  isCreateModalOpen : bool;
  isSubmitting : bool;
  formData : TicketCreateInput;
}.

(** [new Date().toISOString().split('T')[0]]: the calendar day of an
    instant, which as a deadline stands for the midnight that starts it. *)
Definition dayOf (today : Timestamp) : Timestamp :=
  (today - today mod 86400000)%Z.

(** The form state the page starts with and resets to. *)
Definition emptyForm (today : Timestamp) : TicketCreateInput :=
  {| c_ticketId := Some ""; c_title := Some ""; c_description := Some "";
     c_priority := Some MEDIUM; c_status := Some SCHEDULED;
     c_category := Some "General"; c_deadline := Some (dayOf today);
     c_csamName := Some ""; c_tpid := Some ""; c_agreementId := Some "";
     c_customerName := Some ""; c_customerType := Some SMB;
     c_notes := Some []; c_subtasks := Some []; c_assignedTo := None;
     c_tags := Some [] |}.

Definition setIsCreateModalOpen (b : bool) (page : State) : State :=
  {| isCreateModalOpen := b; isSubmitting := isSubmitting page;
     formData := formData page |}.
Definition setIsSubmitting (b : bool) (page : State) : State :=
  {| isCreateModalOpen := isCreateModalOpen page; isSubmitting := b;
     formData := formData page |}.
Definition setFormData (d : TicketCreateInput) (page : State) : State :=
  {| isCreateModalOpen := isCreateModalOpen page;
     isSubmitting := isSubmitting page; formData := d |}.

(** [handleSubmit]: submit the form through the store; close the modal
    and reset the form when a ticket comes back. *)
Definition handleSubmit `{Js.Strings} (page : State) : UseTickets.Callback State :=
  fun st w =>
    let page := setIsSubmitting true page in
    let '(newTicket, st', w') := UseTickets.addTicket (formData page) st w in
    let page :=
      match newTicket with
      | Some _ =>
          setFormData (emptyForm (clientClock w'))
            (setIsCreateModalOpen false page)
      | None => page
      end in
    (setIsSubmitting false page, st', w').

(** [handleTicketUpdate]: the board's [onTicketUpdate]; it awaits the
    store's update and drops its result. *)
Definition handleTicketUpdate (ticketId' : string) (newStatus : Status)
    : UseTickets.Callback unit :=
  fun st w =>
    let '(_, st', w') := UseTickets.updateTicket (statusOnly ticketId' newStatus) st w in
    (tt, st', w').

End Dashboard.

(* ===================================================================== *)
(** ** Specification-level notions and example data *)
(* ===================================================================== *)

(** [needle] occurs in [s]. *)
Definition Substring (needle s : string) : Prop :=
  exists before after, s = before +:+ needle +:+ after.

(** The text the full-text search of the service looks at: the five
    fields joined by single spaces. *)
Definition searchableText (t : Ticket) : string :=
  Js.join " " [title t; description t; ticketId t; customerName t; csamName t].

(** The filter semantics in the words of the specification: a ticket
    satisfies a filter specification when it satisfies every field that is
    provided and not empty (logical AND); status, priority, category and
    CSAM name by membership, customer name by case-insensitive substring,
    assignee by equality, tags by a common tag, search by case-insensitive
    substring of the searched text. *)
Record Satisfies `{Js.Strings} (f : TicketFilters) (t : Ticket) : Prop := {
  sat_status : forall xs, f_status f = Some xs -> xs <> [] -> status t ∈ xs;
  sat_priority : forall xs, f_priority f = Some xs -> xs <> [] -> priority t ∈ xs;
  sat_category : forall xs, f_category f = Some xs -> xs <> [] -> category t ∈ xs;
  sat_csamName : forall xs, f_csamName f = Some xs -> xs <> [] -> csamName t ∈ xs;
  sat_customerName : forall s, f_customerName f = Some s -> s <> "" ->
    Substring (Js.toLowerCase s) (Js.toLowerCase (customerName t));
  sat_assignedTo : forall s, f_assignedTo f = Some s -> s <> "" ->
    assignedTo t = Some s;
  sat_tags : forall xs, f_tags f = Some xs -> xs <> [] ->
    exists tag, tag ∈ xs /\ tag ∈ tags t;
  sat_search : forall s, f_search f = Some s -> s <> "" ->
    Substring (Js.toLowerCase s) (Js.toLowerCase (searchableText t));
}.

(** A filter object whose every field is present and empty. *)
Definition emptyFilters : TicketFilters :=
  {| f_status := Some []; f_priority := Some []; f_category := Some [];
     f_csamName := Some []; f_customerName := Some ""; f_assignedTo := Some "";
     f_tags := Some []; f_search := Some "" |}.

Definition onlyStatus (xs : list Status) : TicketFilters :=
  {| f_status := Some xs; f_priority := None; f_category := None;
     f_csamName := None; f_customerName := None; f_assignedTo := None;
     f_tags := None; f_search := None |}.

Definition onlyCustomerName (s : string) : TicketFilters :=
  {| f_status := None; f_priority := None; f_category := None;
     f_csamName := None; f_customerName := Some s; f_assignedTo := None;
     f_tags := None; f_search := None |}.

Definition onlySearch (s : string) : TicketFilters :=
  {| f_status := None; f_priority := None; f_category := None;
     f_csamName := None; f_customerName := None; f_assignedTo := None;
     f_tags := None; f_search := Some s |}.

(** The collection of the example: three tickets with statuses SCHEDULED,
    COMPLETED, COMPLETED. *)
Definition exampleCollection : list Ticket :=
  [ Controller.mkTicket "a" "TCK-A" "first" "" LOW SCHEDULED "" 0 None 0 0
      "" "" "" "" SMB None [];
    Controller.mkTicket "b" "TCK-B" "second" "" LOW COMPLETED "" 0 (Some 1%Z) 0 1
      "" "" "" "" SMB None [];
    Controller.mkTicket "c" "TCK-C" "third" "" LOW COMPLETED "" 0 (Some 2%Z) 0 2
      "" "" "" "" SMB None [] ].

Definition exampleWorld (tickets : list Ticket) : World :=
  {| server := tickets; env := {| now := 1767225600000; random := "4fzyo82mvyq" |};
     online := true; arrives := true; requests := [];
     clientClock := 1767225600123 |}.

(** The searched text in the words of the claim: the concatenation of the
    title, description, ticket code, customer name and CSAM name. *)
Definition concatenation (t : Ticket) : string :=
  title t +:+ description t +:+ ticketId t +:+ customerName t +:+ csamName t.

(** The ticket [updateTicket] stores over [stored] for the request body
    [body]. *)
Definition updated (stored : Ticket) (body : TicketUpdateInput) (e : Env) : Ticket :=
  Controller.updatedTicket stored (delete_createdAt (delete_id body)) e.

(** The request addresses the first stored ticket with the identifier of
    the path: [tickets.findIndex((t) => t.id === id)]. *)
Definition addresses (id' : string) (tickets : list Ticket) (i : nat) (stored : Ticket) : Prop :=
  list_find (fun t => id t = id') tickets = Some (i, stored).

Definition completeInput : TicketUpdateInput :=
  TicketService.statusInput "3" COMPLETED None.

(** A payload that sets another status and tries to null [completedAt]. *)
Definition reopenInput : TicketUpdateInput :=
  {| u_id := None; u_ticketId := None; u_title := None; u_description := None;
     u_deadline := None; u_priority := None; u_category := None;
     u_status := Some ACTIVE; u_completedAt := Some None; u_createdAt := None;
     u_updatedAt := None; u_csamName := None; u_tpid := None;
     u_agreementId := None; u_customerName := None; u_customerType := None;
     u_notes := None; u_subtasks := None; u_assignedTo := None;
     u_tags := None |}.

Definition env1 : Env := {| now := 1767225600000; random := "4fzyo82mvyq" |}.
Definition env2 : Env := {| now := 1767229200000; random := "9x1c0hd7k2b" |}.

(** The keys of a ticket object, and the value stored under a key. *)
Inductive Field :=
  | F_id | F_ticketId | F_title | F_description | F_deadline | F_priority
  | F_category | F_status | F_completedAt | F_createdAt | F_updatedAt
  | F_csamName | F_tpid | F_agreementId | F_customerName | F_customerType
  | F_notes | F_subtasks | F_assignedTo | F_tags.

Inductive FieldValue :=
  | VString (s : string)
  | VTime (z : Timestamp)
  | VNullableTime (o : option Timestamp)
  | VNullableString (o : option string)
  | VPriority (p : Priority)
  | VStatus (s : Status)
  | VCustomerType (c : CustomerType)
  | VStrings (l : list string)
  | VSubtasks (l : list Subtask).

(** [t[f]] *)
Definition get (f : Field) (t : Ticket) : FieldValue :=
  match f with
  | F_id => VString (id t)
  | F_ticketId => VString (ticketId t)
  | F_title => VString (title t)
  | F_description => VString (description t)
  | F_deadline => VTime (deadline t)
  | F_priority => VPriority (priority t)
  | F_category => VString (category t)
  | F_status => VStatus (status t)
  | F_completedAt => VNullableTime (completedAt t)
  | F_createdAt => VTime (createdAt t)
  | F_updatedAt => VTime (updatedAt t)
  | F_csamName => VString (csamName t)
  | F_tpid => VString (tpid t)
  | F_agreementId => VString (agreementId t)
  | F_customerName => VString (customerName t)
  | F_customerType => VCustomerType (customerType t)
  | F_notes => VStrings (notes t)
  | F_subtasks => VSubtasks (subtasks t)
  | F_assignedTo => VNullableString (assignedTo t)
  | F_tags => VStrings (tags t)
  end.

(** [f in u]: the payload names the key. *)
Definition names (u : TicketUpdateInput) (f : Field) : bool :=
  match f with
  | F_id => bool_decide (is_Some (u_id u))
  | F_ticketId => bool_decide (is_Some (u_ticketId u))
  | F_title => bool_decide (is_Some (u_title u))
  | F_description => bool_decide (is_Some (u_description u))
  | F_deadline => bool_decide (is_Some (u_deadline u))
  | F_priority => bool_decide (is_Some (u_priority u))
  | F_category => bool_decide (is_Some (u_category u))
  | F_status => bool_decide (is_Some (u_status u))
  | F_completedAt => bool_decide (is_Some (u_completedAt u))
  | F_createdAt => bool_decide (is_Some (u_createdAt u))
  | F_updatedAt => bool_decide (is_Some (u_updatedAt u))
  | F_csamName => bool_decide (is_Some (u_csamName u))
  | F_tpid => bool_decide (is_Some (u_tpid u))
  | F_agreementId => bool_decide (is_Some (u_agreementId u))
  | F_customerName => bool_decide (is_Some (u_customerName u))
  | F_customerType => bool_decide (is_Some (u_customerType u))
  | F_notes => bool_decide (is_Some (u_notes u))
  | F_subtasks => bool_decide (is_Some (u_subtasks u))
  | F_assignedTo => bool_decide (is_Some (u_assignedTo u))
  | F_tags => bool_decide (is_Some (u_tags u))
  end.

(** A payload that names [id] and [createdAt] (and a new title). *)
Definition forgingInput : TicketUpdateInput :=
  {| u_id := Some "1"; u_ticketId := None; u_title := Some "Renamed";
     u_description := None; u_deadline := None; u_priority := None;
     u_category := None; u_status := None; u_completedAt := None;
     u_createdAt := Some 0%Z; u_updatedAt := None; u_csamName := None;
     u_tpid := None; u_agreementId := None; u_customerName := None;
     u_customerType := None; u_notes := None; u_subtasks := None;
     u_assignedTo := None; u_tags := None |}.

Definition UniqueIds (tickets : list Ticket) : Prop := NoDup (id <$> tickets).
Definition UniqueCodes (tickets : list Ticket) : Prop := NoDup (ticketId <$> tickets).

(** A PUT body that sets the ticket code of the addressed ticket to the
    code of the first seeded ticket. *)
Definition recodeInput : TicketUpdateInput :=
  {| u_id := Some "2"; u_ticketId := Some "TCK-001"; u_title := None;
     u_description := None; u_deadline := None; u_priority := None;
     u_category := None; u_status := None; u_completedAt := None;
     u_createdAt := None; u_updatedAt := None; u_csamName := None;
     u_tpid := None; u_agreementId := None; u_customerName := None;
     u_customerType := None; u_notes := None; u_subtasks := None;
     u_assignedTo := None; u_tags := None |}.

(** An empty input property: missing, or the empty string. *)
Definition Empty (o : option string) : Prop := o = None \/ o = Some "".

(** The errors thrown by the service before any request is issued. *)
Definition ValidationError (e : Thrown) : Prop :=
  e = Error "Ticket title is required" \/ e = Error "Ticket ID is required".

(** The input of a form submitted without a title. *)
Definition untitledInput : TicketCreateInput :=
  {| c_ticketId := Some "TCK-100"; c_title := Some ""; c_description := None;
     c_deadline := None; c_priority := None; c_category := None;
     c_status := None; c_csamName := None; c_tpid := None;
     c_agreementId := None; c_customerName := None; c_customerType := None;
     c_notes := None; c_subtasks := None; c_assignedTo := None;
     c_tags := None |}.

(** The input [{ticketId: "TCK-100", title: "X"}]. *)
Definition tck100 : TicketCreateInput :=
  {| c_ticketId := Some "TCK-100"; c_title := Some "X"; c_description := None;
     c_deadline := None; c_priority := None; c_category := None;
     c_status := None; c_csamName := None; c_tpid := None;
     c_agreementId := None; c_customerName := None; c_customerType := None;
     c_notes := None; c_subtasks := None; c_assignedTo := None;
     c_tags := None |}.

(** A callback returns a success/failure result when the outcome of the
    service call it wraps can be read off the value it returns. *)
Definition ReturnsResult {A B} (op : UseTickets.Callback A) (service : Async B) : Prop :=
  exists succeeded : A -> bool,
    forall st w,
      succeeded (fst (fst (op st w))) = true
      <-> exists b, fst (service w) = Resolved b.

(** A world whose transport is down: no request reaches the server. *)
Definition offlineWorld : World :=
  {| server := Controller.tickets; env := env1; online := false;
     arrives := false; requests := []; clientClock := 1767225600123 |}.

(** A world whose transport fails after the server has handled the
    request: the response is lost. *)
Definition lossyWorld : World :=
  {| server := Controller.tickets; env := env1; online := false;
     arrives := true; requests := []; clientClock := 1767225600123 |}.

(** A store that holds the seeded collection. *)
Definition loadedState : UseTickets.State :=
  {| UseTickets.tickets := Controller.tickets; UseTickets.loading := false;
     UseTickets.lastError := None |}.

(** Modelled from the spec: the number of subtasks of a ticket whose
    completion flag is true. The repository declares the field in the
    interface [TicketWithMetadata] and has no function that computes it. *)
Definition completedSubtasksCount (t : Ticket) : nat :=
  length (List.filter sub_completed (subtasks t)).

(** Modelled from the spec: the number of subtasks of a ticket. The
    repository declares the field in the interface [TicketWithMetadata] and
    has no function that computes it. *)
Definition totalSubtasksCount (t : Ticket) : nat :=
  length (subtasks t).

(** Modelled from the spec: the derived-metadata projection of the
    completion percentage, of which the repository has the declaration in
    [TicketWithMetadata] only: the count of subtasks with completion flag
    true, divided by the total subtask count, scaled to 0-100, and 0 when
    there are no subtasks. *)
Definition completionPercentage (t : Ticket) : Q :=
  if (totalSubtasksCount t =? 0)%nat then 0
  else (Z.of_nat (completedSubtasksCount t) # 1)
       / (Z.of_nat (totalSubtasksCount t) # 1) * 100.

Definition subtask (text : string) (done : bool) : Subtask :=
  {| sub_id := None; sub_text := text; sub_completed := done;
     sub_completedAt := None |}.

(** A ticket with two of its four subtasks completed. *)
Definition halfDone : Ticket :=
  {| id := "9"; ticketId := "TCK-009"; title := "Release"; description := "";
     deadline := 1767139200000; priority := HIGH; category := "DevOps";
     status := IN_PROGRESS; completedAt := None; createdAt := 1761955200000;
     updatedAt := 1761955200000; csamName := ""; tpid := ""; agreementId := "";
     customerName := ""; customerType := SMB; notes := [];
     subtasks := [subtask "build" true; subtask "test" true;
                  subtask "tag" false; subtask "publish" false];
     assignedTo := None; tags := [] |}.

(** A success envelope: a 2xx status, [success: true], the data, no error. *)
Definition Success {A} (r : HttpResponse A) : Prop :=
  Api.ok r = true /\ success (json r) = true /\ is_Some (data (json r))
  /\ error (json r) = None.

(** A failure envelope with error text [msg]: a 4xx or 5xx status,
    [success: false], no data, a non-empty error and no [message]. *)
Definition Failure {A} (r : HttpResponse A) (msg : string) : Prop :=
  Api.ok r = false /\ (400 <= statusCode r < 600)%nat
  /\ success (json r) = false /\ data (json r) = None
  /\ error (json r) = Some msg /\ msg <> "" /\ message (json r) = None.

(** The requests served by a GET route. *)
Definition isRead (r : Request) : bool :=
  match r with
  | GET_tickets | GET_ticket _ => true
  | _ => false
  end.

(** The value a PUT body gives to a key, when it names the key. *)
Definition payloadValue (u : TicketUpdateInput) (f : Field) : option FieldValue :=
  match f with
  | F_id => VString <$> u_id u
  | F_ticketId => VString <$> u_ticketId u
  | F_title => VString <$> u_title u
  | F_description => VString <$> u_description u
  | F_deadline => VTime <$> u_deadline u
  | F_priority => VPriority <$> u_priority u
  | F_category => VString <$> u_category u
  | F_status => VStatus <$> u_status u
  | F_completedAt => VNullableTime <$> u_completedAt u
  | F_createdAt => VTime <$> u_createdAt u
  | F_updatedAt => VTime <$> u_updatedAt u
  | F_csamName => VString <$> u_csamName u
  | F_tpid => VString <$> u_tpid u
  | F_agreementId => VString <$> u_agreementId u
  | F_customerName => VString <$> u_customerName u
  | F_customerType => VCustomerType <$> u_customerType u
  | F_notes => VStrings <$> u_notes u
  | F_subtasks => VSubtasks <$> u_subtasks u
  | F_assignedTo => VNullableString <$> u_assignedTo u
  | F_tags => VStrings <$> u_tags u
  end.

(** The keys an update never takes from the body. *)
Definition serverOwned (f : Field) : bool :=
  match f with
  | F_id | F_createdAt | F_updatedAt | F_completedAt => true
  | _ => false
  end.

(** No stored ticket was updated before it was created. *)
Definition TimeOrdered (tickets : list Ticket) : Prop :=
  forall t, t ∈ tickets -> (createdAt t <= updatedAt t)%Z.

(** No stored ticket was created after the instant [today]. *)
Definition CreatedBy (today : Timestamp) (tickets : list Ticket) : Prop :=
  forall t, t ∈ tickets -> (createdAt t <= today)%Z.

#[global] Instance Field_eq_dec : EqDecision Field.
Proof. solve_decision. Defined.

(** A body that asks for a COMPLETED ticket with a new code. *)
Definition doneInput : TicketCreateInput :=
  {| c_ticketId := Some "TCK-200"; c_title := Some "Migrated"; c_description := None;
     c_deadline := None; c_priority := None; c_category := None;
     c_status := Some COMPLETED; c_csamName := None; c_tpid := None;
     c_agreementId := None; c_customerName := None; c_customerType := None;
     c_notes := None; c_subtasks := None; c_assignedTo := None;
     c_tags := None |}.

(** A body that renames a ticket and tries to set its update time. *)
Definition renameInput : TicketUpdateInput :=
  {| u_id := None; u_ticketId := None; u_title := Some "Fix checkout";
     u_description := None; u_deadline := None; u_priority := Some LOW;
     u_category := None; u_status := None; u_completedAt := None;
     u_createdAt := None; u_updatedAt := Some 5%Z; u_csamName := None;
     u_tpid := None; u_agreementId := None; u_customerName := None;
     u_customerType := None; u_notes := None; u_subtasks := None;
     u_assignedTo := Some None; u_tags := None |}.

(** A valid input that reuses the code of the first seeded ticket. *)
Definition duplicateInput : TicketCreateInput :=
  {| c_ticketId := Some "TCK-001"; c_title := Some "Again"; c_description := None;
     c_deadline := None; c_priority := None; c_category := None;
     c_status := None; c_csamName := None; c_tpid := None;
     c_agreementId := None; c_customerName := None; c_customerType := None;
     c_notes := None; c_subtasks := None; c_assignedTo := None;
     c_tags := None |}.

(** A body with a new code whose deadline is one millisecond after the
    last valid date ([+275760-09-13T00:00:00.001Z]). *)
Definition lateInput : TicketCreateInput :=
  {| c_ticketId := Some "TCK-300"; c_title := Some "Late"; c_description := None;
     c_deadline := Some 8640000000000001%Z; c_priority := None; c_category := None;
     c_status := None; c_csamName := None; c_tpid := None;
     c_agreementId := None; c_customerName := None; c_customerType := None;
     c_notes := None; c_subtasks := None; c_assignedTo := None;
     c_tags := None |}.

(* ===================================================================== *)
(** ** Properties, for any implementation of the string methods *)
(* ===================================================================== *)

Section Properties.

Context {strings : Js.Strings}.

(* ===================================================================== *)
(** ** Facts about the JavaScript primitives *)
(* ===================================================================== *)

Lemma startsWith_spec (s p : string) :
  Js.startsWith s p = true <-> exists after, s = p +:+ after.
Proof.
  revert s. induction p as [|a p IH]; intros s; simpl.
  - split; [intros _; exists s; reflexivity | reflexivity].
  - destruct s as [|b s].
    + split; [done | intros [after H]; discriminate H].
    + destruct (ascii_dec a b) as [->|Hne].
      * rewrite IH. split; intros [after H]; exists after.
        -- by rewrite H.
        -- by injection H.
      * split; [done | intros [after H]; injection H; congruence].
Qed.

Lemma includes_spec (s needle : string) :
  Js.includes s needle = true <-> Substring needle s.
Proof.
  unfold Substring. induction s as [|c s IH]; simpl.
  - rewrite orb_false_r, startsWith_spec. split.
    + intros [after H]. by exists "", after.
    + intros [before [after H]]. destruct before; [by exists after | discriminate H].
  - rewrite orb_true_iff, IH, startsWith_spec. split.
    + intros [[after H] | [before [after H]]].
      * by exists "", after.
      * exists (String c before), after. simpl. by rewrite H.
    + intros [before [after H]]. destruct before as [|b before].
      * left. by exists after.
      * right. exists before, after. simpl in H. by injection H.
Qed.

Lemma arrayIncludes_spec {A} `{EqDecision A} (xs : list A) (x : A) :
  Js.arrayIncludes xs x = true <-> x ∈ xs.
Proof.
  unfold Js.arrayIncludes. rewrite existsb_exists. split.
  - intros [y [Hin Hy]]. apply bool_decide_eq_true in Hy. subst y.
    by apply list_elem_of_In.
  - intros Hin. exists x. split; [by apply list_elem_of_In |].
    by apply bool_decide_eq_true.
Qed.

Lemma nonEmpty_spec {A} (o : option (list A)) :
  Js.nonEmpty o = true <-> exists xs, o = Some xs /\ xs <> [].
Proof.
  destruct o as [[|x xs]|]; simpl.
  - split; [done | intros [ys [[= <-] Hne]]; done].
  - split; [intros _; by exists (x :: xs) | done].
  - split; [done | intros [ys [[=] _]]].
Qed.

Lemma truthy_spec (o : option string) :
  Js.truthy o = true <-> exists s, o = Some s /\ s <> "".
Proof.
  destruct o as [s|]; simpl.
  - rewrite negb_true_iff, String.eqb_neq. split.
    + intros Hne. by exists s.
    + by intros [s' [[= <-] Hne]].
  - split; [done | by intros [s [[=] _]]].
Qed.

Lemma or_string_truthy (s d : string) : s <> "" -> Js.or_string (Some s) d = s.
Proof. intros Hne. simpl. apply String.eqb_neq in Hne. by rewrite Hne. Qed.

(** One early return of a filter callback. *)
Lemma early_return (provided holds rest : bool) :
  (if provided && negb holds then false else rest) = true
  <-> (provided = true -> holds = true) /\ rest = true.
Proof. destruct provided, holds, rest; simpl; intuition congruence. Qed.

(** A [try]/[catch] that rethrows what it caught is its body. *)
Lemma try_catch_rethrow {A} (body : Async A) (w : World) :
  try_catch body throw w = body w.
Proof. unfold try_catch, throw. by destruct (body w) as [[a|e] w']. Qed.

(* ===================================================================== *)
(** ** What the client receives when the transport works *)
(* ===================================================================== *)

Ltac run_async :=
  unfold mbind, mret, Async_bind, Async_ret, try_catch, throw in *.

Lemma apiRequest_online (r : Request) (w : World) :
  online w = true ->
  Api.apiRequest r w =
    let '(response, tickets') := Controller.router r (env w) (server w) in
    Api.handleResponse response (sent r tickets' w).
Proof.
  intros Hon. unfold Api.apiRequest, Api.fetch. run_async. rewrite Hon.
  by destruct (Controller.router r (env w) (server w)) as [response tickets'].
Qed.

Lemma apiRequest_offline (r : Request) (w : World) :
  online w = false ->
  Api.apiRequest r w =
    (Rejected (Error "Failed to fetch"),
     sent r (if arrives w then snd (Controller.router r (env w) (server w))
             else server w) w).
Proof.
  intros Hoff. unfold Api.apiRequest, Api.fetch. run_async. rewrite Hoff.
  destruct (arrives w); [| done].
  by destruct (Controller.router r (env w) (server w)) as [response tickets'].
Qed.

Lemma answered_offline (w : World) :
  answered w = true -> online w = false -> arrives w = false.
Proof. unfold answered. intros H Hoff. rewrite Hoff in H. by destruct (arrives w). Qed.

Lemma Api_fetchTickets_online (w : World) :
  online w = true ->
  Api.fetchTickets w = (Resolved (server w), sent GET_tickets (server w) w).
Proof.
  intros Hon. unfold Api.fetchTickets. rewrite try_catch_rethrow.
  unfold mbind, Async_bind. by rewrite apiRequest_online.
Qed.

(* ===================================================================== *)
(** ** Query/filter projection *)
(* ===================================================================== *)

Lemma keep_Satisfies (f : TicketFilters) (t : Ticket) :
  TicketService.keep f t = true <-> Satisfies f t.
Proof.
  unfold TicketService.keep. cbv zeta. rewrite !early_return.
  rewrite !nonEmpty_spec, !truthy_spec, !arrayIncludes_spec, !includes_spec.
  rewrite bool_decide_eq_true, existsb_exists.
  split.
  - intros (Hs & Hp & Hc & Hm & Hn & Ha & Ht & Hq & _).
    split.
    + intros xs E Hne. rewrite E in Hs. apply Hs. by exists xs.
    + intros xs E Hne. rewrite E in Hp. apply Hp. by exists xs.
    + intros xs E Hne. rewrite E in Hc. apply Hc. by exists xs.
    + intros xs E Hne. rewrite E in Hm. apply Hm. by exists xs.
    + intros s E Hne. rewrite E, (or_string_truthy s "" Hne) in Hn.
      apply Hn. by exists s.
    + intros s E Hne. rewrite E in Ha. apply Ha. by exists s.
    + intros xs E Hne. rewrite E in Ht.
      destruct Ht as [tag [Hin Htag]]; [by exists xs |].
      exists tag. split; [by apply list_elem_of_In | by apply arrayIncludes_spec].
    + intros s E Hne. rewrite E, (or_string_truthy s "" Hne) in Hq.
      apply Hq. by exists s.
  - intros [Hs Hp Hc Hm Hn Ha Ht Hq]. split_and!; try done.
    + intros [xs [E Hne]]. rewrite E. by apply Hs.
    + intros [xs [E Hne]]. rewrite E. by apply Hp.
    + intros [xs [E Hne]]. rewrite E. by apply Hc.
    + intros [xs [E Hne]]. rewrite E. by apply Hm.
    + intros [s [E Hne]]. rewrite E, (or_string_truthy s "" Hne). by apply Hn.
    + intros [s [E Hne]]. rewrite E. by apply Ha.
    + intros [xs [E Hne]]. rewrite E.
      destruct (Ht xs E Hne) as [tag [Hin Htag]].
      exists tag. split; [by apply list_elem_of_In | by apply arrayIncludes_spec].
    + intros [s [E Hne]]. rewrite E, (or_string_truthy s "" Hne). by apply Hq.
Qed.

#[global] Instance Satisfies_dec (f : TicketFilters) (t : Ticket) :
  Decision (Satisfies f t).
Proof.
  destruct (TicketService.keep f t) eqn:E.
  - left. by apply keep_Satisfies.
  - right. intros H. apply keep_Satisfies in H. congruence.
Defined.

Lemma filter_keep_Satisfies (f : TicketFilters) (l : list Ticket) :
  List.filter (TicketService.keep f) l = filter (Satisfies f) l.
Proof.
  induction l as [|t l IH]; [done |]. simpl. rewrite filter_cons.
  destruct (decide (Satisfies f t)) as [H|H].
  - apply keep_Satisfies in H. rewrite H. by f_equal.
  - destruct (TicketService.keep f t) eqn:E; [|done].
    by apply keep_Satisfies in E.
Qed.

Lemma fetchTickets_online (filters : option TicketFilters) (w : World) :
  online w = true ->
  TicketService.fetchTickets filters w =
    (Resolved (match filters with
               | None => server w
               | Some f => List.filter (TicketService.keep f) (server w)
               end),
     sent GET_tickets (server w) w).
Proof.
  intros Hon. unfold TicketService.fetchTickets. rewrite try_catch_rethrow.
  unfold mbind, Async_bind. rewrite (Api_fetchTickets_online w Hon).
  by destruct filters.
Qed.

Lemma string_app_empty_r (a : string) : a +:+ "" = a.
Proof.
  induction a as [|x a IH]; [done |].
  change (String x (a +:+ "") = String x a). by rewrite IH.
Qed.

Lemma filter_keep_all (f : TicketFilters) (l : list Ticket) :
  (forall t, TicketService.keep f t = true) ->
  List.filter (TicketService.keep f) l = l.
Proof.
  intros Hall. induction l as [|t l IH]; [done |].
  simpl. by rewrite Hall, IH.
Qed.

(** C2. Whatever the runtime's [toLowerCase] is, the filtered fetch returns
    exactly the tickets of the fetched collection that satisfy every
    provided, non-empty filter field, in the order of the collection; with
    every field omitted, with every field empty, or without a filter object
    it returns the whole collection; [{status: ["COMPLETED"]}] over tickets
    with statuses SCHEDULED, COMPLETED, COMPLETED returns the two COMPLETED
    ones in order; and a customer-name filter keeps every ticket whose
    customer name folds to the same lower-case text as the filter. *)
Theorem filtered_fetch_exact (filters : TicketFilters) (w : World) :
  online w = true ->
  fst (TicketService.fetchTickets (Some filters) w)
    = Resolved (filter (Satisfies filters) (server w))
  /\ (forall t, t ∈ filter (Satisfies filters) (server w)
                <-> Satisfies filters t /\ t ∈ server w)
  /\ filter (Satisfies filters) (server w) `sublist_of` server w
  /\ fst (TicketService.fetchTickets (Some noFilters) w) = Resolved (server w)
  /\ fst (TicketService.fetchTickets (Some emptyFilters) w) = Resolved (server w)
  /\ fst (TicketService.fetchTickets None w) = Resolved (server w)
  /\ (forall t1 t2 t3,
        server w = [t1; t2; t3] ->
        status t1 = SCHEDULED -> status t2 = COMPLETED -> status t3 = COMPLETED ->
        fst (TicketService.fetchTickets (Some (onlyStatus [COMPLETED])) w)
          = Resolved [t2; t3])
  /\ (forall s t,
        Js.toLowerCase s = Js.toLowerCase (customerName t) ->
        TicketService.keep (onlyCustomerName s) t = true).
Proof.
  intros Hon. split_and!.
  - rewrite fetchTickets_online by done. simpl. by rewrite filter_keep_Satisfies.
  - intros t. apply list_elem_of_filter.
  - apply sublist_filter.
  - rewrite fetchTickets_online by done. simpl. f_equal.
    by apply filter_keep_all.
  - rewrite fetchTickets_online by done. simpl. f_equal.
    by apply filter_keep_all.
  - by rewrite fetchTickets_online.
  - intros t1 t2 t3 Hs H1 H2 H3. rewrite fetchTickets_online by done.
    rewrite Hs. unfold TicketService.keep. simpl. by rewrite H1, H2, H3.
  - intros s t Heq. apply keep_Satisfies. split; simpl; try done.
    intros s' [= <-] _. rewrite Heq. exists "", "".
    by rewrite string_app_empty_r.
Qed.

Lemma string_app_assoc (a b c : string) : (a +:+ b) +:+ c = a +:+ (b +:+ c).
Proof.
  induction a as [|x a IH]; [done |].
  change (String x ((a +:+ b) +:+ c) = String x (a +:+ (b +:+ c))).
  by rewrite IH.
Qed.

Lemma Substring_trans (a b c : string) :
  Substring a b -> Substring b c -> Substring a c.
Proof.
  intros (p1 & q1 & ->) (p2 & q2 & ->).
  exists (p2 +:+ p1), (q1 +:+ q2). by rewrite !string_app_assoc.
Qed.

Lemma description_searchable (t : Ticket) :
  Substring (description t) (searchableText t).
Proof.
  exists (title t +:+ " "),
    (" " +:+ ticketId t +:+ " " +:+ customerName t +:+ " " +:+ csamName t).
  unfold searchableText. simpl. by rewrite !string_app_assoc.
Qed.

Lemma keep_search (s : string) (t : Ticket) :
  s <> "" ->
  TicketService.keep (onlySearch s) t = true
  <-> Substring (Js.toLowerCase s) (Js.toLowerCase (searchableText t)).
Proof.
  intros Hne. rewrite keep_Satisfies. split.
  - intros [_ _ _ _ _ _ _ Hq]. by apply Hq.
  - intros H. split; simpl; try done. by intros s' [= <-] _.
Qed.

(** The ASCII implementation obeys the laws of the interface. *)
Lemma toLowerCaseAscii_app (a b : string) :
  Js.toLowerCaseAscii (a +:+ b) = Js.toLowerCaseAscii a +:+ Js.toLowerCaseAscii b.
Proof. induction a as [|c a IH]; [done |]. simpl. by rewrite IH. Qed.

Lemma asciiStrings_lower : Js.LowerCaseOnAscii Js.asciiStrings.
Proof.
  split; [done |]. intros a b c _.
  exists (Js.toLowerCaseAscii a), (Js.toLowerCaseAscii c).
  simpl. by rewrite !toLowerCaseAscii_app.
Qed.

Lemma graphic_not_space (c : ascii) : Js.graphic c = true -> Js.is_space c = false.
Proof. by destruct c as [[] [] [] [] [] [] [] []]. Qed.

Lemma hasGraphic_trimStart (s : string) :
  Js.hasGraphic s = true -> Js.hasGraphic (Js.trimStart s) = true.
Proof.
  induction s as [|c s IH]; [done |]. simpl.
  destruct (Js.is_space c) eqn:Hsp; [| done].
  destruct (Js.graphic c) eqn:Hg; [| exact IH].
  apply graphic_not_space in Hg. congruence.
Qed.

Lemma hasGraphic_rev (s acc : string) :
  Js.hasGraphic (Js.rev_string s acc) = Js.hasGraphic s || Js.hasGraphic acc.
Proof.
  revert acc. induction s as [|c s IH]; intros acc; [done |].
  simpl. rewrite IH. simpl.
  by destruct (Js.graphic c), (Js.hasGraphic s), (Js.hasGraphic acc).
Qed.

Lemma asciiStrings_trim : Js.TrimKeepsGraphic Js.asciiStrings.
Proof.
  intros s Hg. simpl. unfold Js.trimAscii.
  assert (H : Js.hasGraphic
            (Js.rev_string (Js.trimStart (Js.rev_string (Js.trimStart s) "")) "")
            = true).
  { rewrite hasGraphic_rev, orb_false_r. apply hasGraphic_trimStart.
    rewrite hasGraphic_rev, orb_false_r. by apply hasGraphic_trimStart. }
  intros E. by rewrite E in H.
Qed.

(** C7, amended. The search filter matches a ticket exactly when the
    search string, folded to lower case by the runtime, occurs in the
    folded text made of the title, description, ticket code, customer name
    and CSAM name joined by single spaces; an empty search string matches
    every ticket; and, as the runtime folds a run of ASCII letters in its
    place, the search "payment" matches every ticket whose description
    contains "Payment gateway issue". *)
Theorem search_matches_joined_text (search : string) (t : Ticket) :
  (search <> "" ->
   (TicketService.keep (onlySearch search) t = true
    <-> Substring (Js.toLowerCase search)
          (Js.toLowerCase
             (Js.join " " [title t; description t; ticketId t;
                           customerName t; csamName t]))))
  /\ TicketService.keep (onlySearch "") t = true
  /\ (Js.LowerCaseOnAscii strings ->
      (TicketService.keep (onlySearch search) t = true
       <-> Substring (Js.toLowerCase search)
             (Js.toLowerCase
                (Js.join " " [title t; description t; ticketId t;
                              customerName t; csamName t])))
      /\ (Substring "Payment gateway issue" (description t) ->
          TicketService.keep (onlySearch "payment") t = true)).
Proof.
  split_and!.
  - intros Hne. by apply keep_search.
  - done.
  - intros [Hascii Hinside]. split.
    + destruct (decide (search = "")) as [->|Hne]; [| by apply keep_search].
      split; [| done]. intros _. rewrite (Hascii "" eq_refl). simpl.
      by exists "", (Js.toLowerCase (searchableText t)).
    + intros Hd. apply keep_search; [done |].
      rewrite (Hascii "payment" eq_refl). simpl.
      destruct (Substring_trans _ _ _ Hd (description_searchable t))
        as (a & c & ->).
      destruct (Hinside a "Payment gateway issue" c eq_refl) as (a' & c' & ->).
      by exists a', (" gateway issue" +:+ c').
Qed.

(* ===================================================================== *)
(** ** The controller's update *)
(* ===================================================================== *)

Lemma updateTicket_found id' body e tickets i stored :
  addresses id' tickets i stored ->
  Controller.updateTicket id' body e tickets =
    (Controller.respond 200 (updated stored body e),
     <[i := updated stored body e]> tickets).
Proof. unfold addresses, Controller.updateTicket. by intros ->. Qed.

Lemma updateTicket_missing id' body e tickets :
  list_find (fun t => id t = id') tickets = None ->
  Controller.updateTicket id' body e tickets =
    (Controller.respondError 404 "Ticket not found", tickets).
Proof. unfold Controller.updateTicket. by intros ->. Qed.

Lemma updated_id stored body e : id (updated stored body e) = id stored.
Proof. reflexivity. Qed.

Lemma addresses_lookup id' tickets i stored :
  addresses id' tickets i stored -> tickets !! i = Some stored /\ id stored = id'.
Proof. intros H. apply list_find_Some in H as (Hi & Hid & _). by split. Qed.

(** Storing a ticket with the same identifier in place keeps the slot
    addressed. *)
Lemma addresses_insert id' tickets i stored t' :
  addresses id' tickets i stored -> id t' = id' ->
  addresses id' (<[i := t']> tickets) i t'.
Proof.
  unfold addresses. intros H Hid. apply list_find_Some in H as (Hi & _ & Hlt).
  apply list_find_Some. split_and!.
  - apply list_lookup_insert_eq. by eapply lookup_lt_Some.
  - done.
  - intros j y Hj Hji. rewrite list_lookup_insert_ne in Hj by lia. eauto.
Qed.

Lemma addresses_unique (tickets : list Ticket) (i : nat) (stored : Ticket) :
  NoDup (id <$> tickets) -> tickets !! i = Some stored ->
  addresses (id stored) tickets i stored.
Proof.
  intros Hnd Hi. apply list_find_Some. split_and!; [done..|].
  intros j y Hj Hji Heq.
  assert (j = i); [|lia].
  eapply (NoDup_lookup (id <$> tickets) j i (id stored)); [done | |].
  - by rewrite list_lookup_fmap, Hj; simpl; rewrite Heq.
  - by rewrite list_lookup_fmap, Hi.
Qed.

(** C1. An update that sets the status to COMPLETED leaves the addressed
    stored ticket with a non-null [completedAt], and a following update
    that sets any other status, whatever else its payload holds, leaves
    that [completedAt] as it was. *)
Theorem completed_then_reopened_keeps_completedAt
    (tickets : list Ticket) (i : nat) (stored : Ticket) (id' : string)
    (b1 b2 : TicketUpdateInput) (e1 e2 : Env) (s : Status) :
  addresses id' tickets i stored ->
  u_status b1 = Some COMPLETED ->
  u_status b2 = Some s -> s <> COMPLETED ->
  let '(r1, tickets1) := Controller.updateTicket id' b1 e1 tickets in
  let '(r2, tickets2) := Controller.updateTicket id' b2 e2 tickets1 in
  exists t1 t2,
    tickets1 !! i = Some t1 /\ data (json r1) = Some t1
    /\ status t1 = COMPLETED
    /\ completedAt t1 = Some (now e1) /\ completedAt t1 <> None
    /\ tickets2 !! i = Some t2 /\ data (json r2) = Some t2
    /\ status t2 = s
    /\ completedAt t2 = completedAt t1.
Proof.
  intros Ha Hb1 Hb2 Hs.
  rewrite (updateTicket_found _ _ _ _ _ _ Ha).
  pose proof (addresses_insert _ _ _ _ (updated stored b1 e1) Ha
                (proj2 (addresses_lookup _ _ _ _ Ha))) as Ha1.
  rewrite (updateTicket_found _ _ _ _ _ _ Ha1).
  apply addresses_lookup in Ha as [Hi _].
  assert (i < length tickets) by (by eapply lookup_lt_Some).
  exists (updated stored b1 e1), (updated (updated stored b1 e1) b2 e2).
  split_and!.
  - by apply list_lookup_insert_eq.
  - done.
  - simpl. by rewrite Hb1.
  - simpl. by rewrite Hb1, bool_decide_eq_true_2.
  - simpl. by rewrite Hb1, bool_decide_eq_true_2.
  - apply list_lookup_insert_eq. by rewrite length_insert.
  - done.
  - simpl. by rewrite Hb2.
  - simpl. rewrite Hb2, (bool_decide_eq_false_2 (Some s = Some COMPLETED)); [done|].
    intros [= ->]. done.
Qed.

Lemma completedAt_updated stored body e :
  completedAt (updated stored body e) =
    if bool_decide (u_status body = Some COMPLETED)
    then Some (now e) else completedAt stored.
Proof. reflexivity. Qed.

(** An update of the service, on a world whose transport works and whose
    server stores the addressed ticket: the identifier goes into the path,
    the rest of the input is the body, and the ticket that comes back is
    the one the controller stored. *)
Lemma updateTicket_online (u : TicketUpdateInput) (id' : string) (w : World)
    (i : nat) (stored : Ticket) :
  online w = true -> u_id u = Some id' -> id' <> "" ->
  addresses id' (server w) i stored ->
  TicketService.updateTicket u w =
    (Resolved (updated stored u (env w)),
     sent (PUT_ticket id' (delete_id u))
       (<[i := updated stored u (env w)]> (server w)) w).
Proof.
  intros Hon Hid Hne Ha. unfold TicketService.updateTicket.
  rewrite try_catch_rethrow.
  assert (Js.truthy (u_id u) = true) as ->.
  { apply truthy_spec. by exists id'. }
  cbn [negb]. unfold Api.updateTicket. rewrite try_catch_rethrow.
  cbv zeta. unfold mbind, Async_bind. rewrite Hid. cbn [Js.or_else].
  rewrite apiRequest_online by done.
  change (Controller.router (PUT_ticket id' (delete_id u)) (env w) (server w))
    with (Controller.updateTicket id' (delete_id u) (env w) (server w)).
  by rewrite (updateTicket_found _ _ _ _ _ _ Ha).
Qed.

(** The status update of the service: the hint of the browser's clock
    travels in the body. *)
Lemma updateTicketStatus_online (id' : string) (s : Status) (w : World)
    (i : nat) (stored : Ticket) :
  online w = true -> id' <> "" ->
  addresses id' (server w) i stored ->
  let input :=
    TicketService.statusInput id' s
      (if bool_decide (s = COMPLETED) then Some (clientClock w) else None) in
  TicketService.updateTicketStatus id' s w =
    (Resolved (updated stored input (env w)),
     sent (PUT_ticket id' (delete_id input))
       (<[i := updated stored input (env w)]> (server w)) w).
Proof.
  intros Hon Hne Ha. unfold TicketService.updateTicketStatus.
  rewrite try_catch_rethrow. unfold mbind, Async_bind.
  destruct (bool_decide (s = COMPLETED)); simpl;
    by apply updateTicket_online.
Qed.

(** C10. An update stores the server's current time in [completedAt] when
    the payload's status is COMPLETED and keeps the stored [completedAt]
    otherwise; a repeated COMPLETED update stamps again, with the time of
    the later request; and the status update of the service stores the
    server's time, not the hint of the browser. *)
Theorem completedAt_stamped_iff_payload_completed
    (tickets : list Ticket) (i : nat) (stored : Ticket) (id' : string)
    (body : TicketUpdateInput) (e : Env) :
  addresses id' tickets i stored ->
  let '(r, tickets') := Controller.updateTicket id' body e tickets in
  exists t',
    tickets' !! i = Some t' /\ data (json r) = Some t'
    /\ (u_status body = Some COMPLETED -> completedAt t' = Some (now e))
    /\ (u_status body <> Some COMPLETED -> completedAt t' = completedAt stored)
    /\ (forall b2 e2,
          u_status body = Some COMPLETED -> u_status b2 = Some COMPLETED ->
          exists t2,
            snd (Controller.updateTicket id' b2 e2 tickets') !! i = Some t2
            /\ status t' = COMPLETED
            /\ completedAt t2 = Some (now e2)
            /\ (now e < now e2 -> completedAt t2 <> completedAt t')%Z)
    /\ (forall w s,
          online w = true -> id' <> "" -> server w = tickets ->
          exists t,
            fst (TicketService.updateTicketStatus id' s w) = Resolved t
            /\ completedAt t =
                 if bool_decide (s = COMPLETED)
                 then Some (now (env w)) else completedAt stored).
Proof.
  intros Ha. rewrite (updateTicket_found _ _ _ _ _ _ Ha).
  pose proof (addresses_lookup _ _ _ _ Ha) as [Hi Hid].
  assert (Hlen : i < length tickets) by (by eapply lookup_lt_Some).
  exists (updated stored body e). split_and!.
  - by apply list_lookup_insert_eq.
  - done.
  - intros Hc. by rewrite completedAt_updated, bool_decide_eq_true_2.
  - intros Hc. by rewrite completedAt_updated, bool_decide_eq_false_2.
  - intros b2 e2 Hc Hc2.
    pose proof (addresses_insert _ _ _ _ (updated stored body e) Ha Hid) as Ha1.
    rewrite (updateTicket_found _ _ _ _ _ _ Ha1). simpl snd.
    exists (updated (updated stored body e) b2 e2). split_and!.
    + apply list_lookup_insert_eq. by rewrite length_insert.
    + simpl. by rewrite Hc.
    + by rewrite completedAt_updated, bool_decide_eq_true_2.
    + intros Hlt. rewrite !completedAt_updated, !bool_decide_eq_true_2 by done.
      intros [= Heq]. lia.
  - intros w s Hon Hne Hs. subst tickets.
    rewrite (updateTicketStatus_online id' s w i stored Hon Hne Ha). simpl fst.
    eexists. split; [reflexivity |].
    rewrite completedAt_updated. simpl.
    destruct s; reflexivity.
Qed.

(* ===================================================================== *)
(** ** The frame of an update *)
(* ===================================================================== *)

Lemma or_else_unnamed {A} (o : option A) (d : A) :
  bool_decide (is_Some o) = false -> Js.or_else o d = d.
Proof. by destruct o. Qed.

Lemma updated_frame stored body e f :
  f <> F_updatedAt -> f <> F_completedAt ->
  names body f = false ->
  get f (updated stored body e) = get f stored.
Proof.
  intros Hu Hc Hn.
  destruct f; try done; simpl in *; by rewrite (or_else_unnamed _ _ Hn).
Qed.

(** C6. Whatever the payload holds, also [id] and [createdAt] keys, the
    update leaves the stored ticket's [id] and [createdAt] as they were;
    every key the payload does not name keeps its value, [updatedAt] and
    [completedAt] apart; and no other stored ticket changes. *)
Theorem update_keeps_id_createdAt_and_unnamed_fields
    (tickets : list Ticket) (i : nat) (stored : Ticket) (id' : string)
    (body : TicketUpdateInput) (e : Env) :
  addresses id' tickets i stored ->
  let '(r, tickets') := Controller.updateTicket id' body e tickets in
  exists t',
    tickets' !! i = Some t' /\ data (json r) = Some t'
    /\ get F_id t' = get F_id stored
    /\ get F_createdAt t' = get F_createdAt stored
    /\ names (delete_createdAt (delete_id body)) F_id = false
    /\ names (delete_createdAt (delete_id body)) F_createdAt = false
    /\ (forall f, f <> F_updatedAt -> f <> F_completedAt ->
          names body f = false -> get f t' = get f stored)
    /\ (forall j, j <> i -> tickets' !! j = tickets !! j)
    /\ length tickets' = length tickets.
Proof.
  intros Ha. rewrite (updateTicket_found _ _ _ _ _ _ Ha).
  pose proof (addresses_lookup _ _ _ _ Ha) as [Hi Hid].
  exists (updated stored body e). split_and!; try done.
  - apply list_lookup_insert_eq. by eapply lookup_lt_Some.
  - intros f. apply updated_frame.
  - intros j Hj. by apply list_lookup_insert_ne.
  - apply length_insert.
Qed.

(* ===================================================================== *)
(** ** Uniqueness of identifiers and ticket codes *)
(* ===================================================================== *)

Lemma seeded_unique : UniqueIds Controller.tickets /\ UniqueCodes Controller.tickets.
Proof. split; apply (bool_decide_unpack _); by vm_compute. Qed.

(** Creation never duplicates a ticket code. *)
Lemma createTicket_unique_codes body e tickets :
  UniqueCodes tickets -> UniqueCodes (snd (Controller.createTicket body e tickets)).
Proof.
  unfold UniqueCodes, Controller.createTicket. intros Hnd.
  destruct (negb (Js.truthy (c_ticketId body)) || negb (Js.truthy (c_title body)));
    [done |].
  destruct (List.find _ tickets) as [existing|] eqn:Hfind; [done |].
  destruct (Controller.deadlineThrows body); [done |].
  simpl. rewrite fmap_app. apply NoDup_app. split_and!; [done | | apply NoDup_singleton].
  intros code Hin Hnew. apply list_elem_of_singleton in Hnew. subst code.
  apply list_elem_of_fmap in Hin as (t & Hcode & Ht).
  apply list_elem_of_In in Ht.
  pose proof (find_none _ _ Hfind t Ht) as Hneq. simpl in Hneq, Hcode.
  apply String.eqb_neq in Hneq. congruence.
Qed.

(** Creation with a code that is already present fails and adds nothing. *)
Lemma createTicket_existing_code body e tickets code t :
  c_ticketId body = Some code -> code <> "" -> Js.truthy (c_title body) = true ->
  t ∈ tickets -> ticketId t = code ->
  Controller.createTicket body e tickets =
    (Controller.respondError 400 "Ticket ID already exists", tickets).
Proof.
  intros Hc Hne Ht Hin Hcode. unfold Controller.createTicket.
  assert (Js.truthy (c_ticketId body) = true) as ->.
  { apply truthy_spec. by exists code. }
  rewrite Ht. cbn [negb orb]. rewrite Hc, (or_string_truthy code "" Hne).
  destruct (List.find _ tickets) as [existing|] eqn:Hfind; [done |].
  apply list_elem_of_In in Hin.
  pose proof (find_none _ _ Hfind t Hin) as Hneq. simpl in Hneq.
  apply String.eqb_neq in Hneq. congruence.
Qed.

(** Creation keeps the identifiers unique when the generated one is new. *)
Lemma createTicket_unique_ids body e tickets :
  Controller.generateId e ∉ id <$> tickets ->
  UniqueIds tickets -> UniqueIds (snd (Controller.createTicket body e tickets)).
Proof.
  unfold UniqueIds, Controller.createTicket. intros Hfresh Hnd.
  destruct (negb (Js.truthy (c_ticketId body)) || negb (Js.truthy (c_title body)));
    [done |].
  destruct (List.find _ tickets) as [existing|]; [done |].
  destruct (Controller.deadlineThrows body); [done |].
  simpl. rewrite fmap_app. apply NoDup_app. split_and!; [done | | apply NoDup_singleton].
  intros i Hin Hnew. apply list_elem_of_singleton in Hnew. by subst i.
Qed.

(** An update never duplicates an identifier. *)
Lemma updateTicket_unique_ids id' body e tickets :
  UniqueIds tickets -> UniqueIds (snd (Controller.updateTicket id' body e tickets)).
Proof.
  unfold UniqueIds. intros Hnd.
  destruct (list_find (fun t => id t = id') tickets) as [[i stored]|] eqn:Hfind.
  - rewrite (updateTicket_found _ _ _ _ _ _ Hfind). simpl.
    rewrite list_fmap_insert, updated_id, list_insert_id; [done |].
    rewrite list_lookup_fmap.
    by apply addresses_lookup in Hfind as [-> _].
  - by rewrite (updateTicket_missing _ _ _ _ Hfind).
Qed.

(** A deletion keeps both. *)
Lemma deleteTicket_unique id' e tickets :
  (UniqueIds tickets -> UniqueIds (snd (Controller.deleteTicket id' e tickets)))
  /\ (UniqueCodes tickets -> UniqueCodes (snd (Controller.deleteTicket id' e tickets))).
Proof.
  unfold UniqueIds, UniqueCodes, Controller.deleteTicket.
  destruct (list_find _ tickets) as [[i stored]|]; [|done]. simpl.
  split; intros Hnd; rewrite list_fmap_delete;
    (eapply sublist_NoDup; [exact Hnd | apply sublist_delete]).
Qed.

(** C8, at the failing input. On the seeded collection, whose identifiers
    and codes are unique, the store's update with the payload
    [{id: "2", ticketId: "TCK-001"}] succeeds, and afterwards the first two
    tickets of the server's collection, of the local collection and of the
    refreshed local collection carry the code "TCK-001". *)
Theorem update_duplicates_ticket_code :
  UniqueIds Controller.tickets /\ UniqueCodes Controller.tickets
  /\ (let '(r, st0, w0) :=
        UseTickets.refreshTickets UseTickets.initial (exampleWorld Controller.tickets) in
      let '(r1, st1, w1) := UseTickets.updateTicket recodeInput st0 w0 in
      let '(r2, st2, w2) := UseTickets.refreshTickets st1 w1 in
      UseTickets.tickets st0 = Controller.tickets
      /\ is_Some r1 /\ UseTickets.lastError st1 = None
      /\ ticketId <$> server w1 !! 0%nat = Some "TCK-001"
      /\ ticketId <$> server w1 !! 1%nat = Some "TCK-001"
      /\ ~ UniqueCodes (server w1)
      /\ ~ UniqueCodes (UseTickets.tickets st1)
      /\ ~ UniqueCodes (UseTickets.tickets st2)).
Proof.
  split; [apply seeded_unique |]. split; [apply seeded_unique |].
  vm_compute. split_and!; try done.
  - by eexists.
  - intros H. apply NoDup_cons in H as [H _]. apply H. apply list_elem_of_here.
  - intros H. apply NoDup_cons in H as [H _]. apply H. apply list_elem_of_here.
  - intros H. apply NoDup_cons in H as [H _]. apply H. apply list_elem_of_here.
Qed.

(* ===================================================================== *)
(** ** Creation: validation and defaults *)
(* ===================================================================== *)

Lemma Empty_blank (o : option string) : Empty o -> TicketService.blank o = true.
Proof. by intros [-> | ->]. Qed.

Lemma createTicket_blank (ticketData : TicketCreateInput) (w : World) :
  TicketService.blank (c_title ticketData) = true
  \/ TicketService.blank (c_ticketId ticketData) = true ->
  exists e, ValidationError e
    /\ TicketService.createTicket ticketData w = (Rejected e, w).
Proof.
  intros H. unfold TicketService.createTicket. rewrite try_catch_rethrow.
  destruct (TicketService.blank (c_title ticketData)) eqn:Ht.
  - exists (Error "Ticket title is required"). split; [by left | done].
  - destruct H as [H | ->]; [done |].
    exists (Error "Ticket ID is required"). split; [by right | done].
Qed.

(** C4. A create input whose title is empty, or whose ticket code is
    empty, is rejected by the service with a validation error; the store's
    [addTicket] then returns null, issues no request, leaves the server and
    the local collection as they were and records the message. *)
Theorem create_with_empty_title_or_code_is_rejected
    (ticketData : TicketCreateInput) (st : UseTickets.State) (w : World) :
  Empty (c_title ticketData) \/ Empty (c_ticketId ticketData) ->
  exists e msg,
    ValidationError e /\ e = Error msg
    /\ TicketService.createTicket ticketData w = (Rejected e, w)
    /\ let '(r, st', w') := UseTickets.addTicket ticketData st w in
       r = None
       /\ requests w' = requests w
       /\ server w' = server w
       /\ UseTickets.tickets st' = UseTickets.tickets st
       /\ UseTickets.lastError st' = Some msg.
Proof.
  intros H.
  destruct (createTicket_blank ticketData w) as (e & Hv & Hrun).
  { destruct H as [H | H]; [left | right]; by apply Empty_blank. }
  assert (exists msg, e = Error msg) as [msg ->].
  { destruct Hv as [-> | ->]; by eexists. }
  exists (Error msg), msg. split_and!; try done.
  unfold UseTickets.addTicket. by rewrite Hrun.
Qed.

(** Whatever the server answers, a request leaves the world with the
    request issued. *)
Lemma handleResponse_world {A} (response : HttpResponse A) (w : World) :
  snd (Api.handleResponse response w) = w.
Proof. unfold Api.handleResponse. by destruct (negb (Api.ok response)). Qed.

Lemma apiRequest_world (r : Request) (w : World) :
  exists tickets', snd (Api.apiRequest r w) = sent r tickets' w.
Proof.
  destruct (online w) eqn:Hon.
  - rewrite apiRequest_online by done.
    destruct (Controller.router r (env w) (server w)) as [response tickets'].
    exists tickets'. apply handleResponse_world.
  - rewrite apiRequest_offline by done. by eexists.
Qed.

Lemma Api_createTicket_world (body : TicketCreateInput) (w : World) :
  exists tickets', snd (Api.createTicket body w) = sent (POST_ticket body) tickets' w.
Proof.
  unfold Api.createTicket. rewrite try_catch_rethrow. unfold mbind, Async_bind.
  destruct (apiRequest_world (POST_ticket body) w) as [tickets' Hw].
  exists tickets'.
  destruct (Api.apiRequest (POST_ticket body) w) as [[response|e] w']; simpl in *;
    [|done].
  by destruct (data response).
Qed.

Lemma find_none_intro {A} (f : A -> bool) (l : list A) :
  (forall x, x ∈ l -> f x = false) -> List.find f l = None.
Proof.
  induction l as [|x l IH]; intros H; [done |]. simpl.
  rewrite (H x) by apply list_elem_of_here.
  apply IH. intros y Hy. apply H. by apply list_elem_of_further.
Qed.

Lemma Controller_createTicket_new body e tickets code :
  c_ticketId body = Some code -> code <> "" -> Js.truthy (c_title body) = true ->
  (forall t, t ∈ tickets -> ticketId t <> code) ->
  Controller.deadlineThrows body = false ->
  Controller.createTicket body e tickets =
    (Controller.respond 201 (Controller.newTicket body e), tickets ++ [Controller.newTicket body e]).
Proof.
  intros Hc Hne Ht Hnew Hd. unfold Controller.createTicket.
  assert (Js.truthy (c_ticketId body) = true) as ->.
  { apply truthy_spec. by exists code. }
  rewrite Ht, Hd. cbn [negb orb]. rewrite find_none_intro; [done |].
  intros t Hin. rewrite Hc, (or_string_truthy code "" Hne).
  apply String.eqb_neq. by apply Hnew.
Qed.

Lemma blank_false_truthy (o : option string) :
  TicketService.blank o = false -> Js.truthy o = true.
Proof.
  unfold TicketService.blank. intros H. apply orb_false_elim in H as [H _].
  by apply negb_false_iff.
Qed.

(** A text with a visible ASCII character passes the validation. *)
Lemma graphic_not_blank (s : string) :
  Js.TrimKeepsGraphic strings -> Js.hasGraphic s = true ->
  TicketService.blank (Some s) = false.
Proof.
  intros Hlaw Hg. unfold TicketService.blank. apply orb_false_intro.
  - apply negb_false_iff, truthy_spec. exists s. split; [done |].
    by intros ->.
  - rewrite or_string_truthy by (by intros ->).
    pose proof (Hlaw s Hg) as Hne.
    by destruct (Js.trim s).
Qed.

Lemma createTicket_sends_defaults (ticketData : TicketCreateInput) (w : World) :
  TicketService.blank (c_title ticketData) = false ->
  TicketService.blank (c_ticketId ticketData) = false ->
  TicketService.createTicket ticketData w =
    Api.createTicket (TicketService.withDefaults ticketData) w.
Proof.
  intros Ht Hc. unfold TicketService.createTicket.
  by rewrite try_catch_rethrow, Ht, Hc.
Qed.

Lemma createTicket_online_new (ticketData : TicketCreateInput) (w : World) :
  online w = true ->
  TicketService.blank (c_title ticketData) = false ->
  TicketService.blank (c_ticketId ticketData) = false ->
  (forall t, t ∈ server w -> Some (ticketId t) <> c_ticketId ticketData) ->
  Controller.deadlineThrows ticketData = false ->
  let body := TicketService.withDefaults ticketData in
  TicketService.createTicket ticketData w =
    (Resolved (Controller.newTicket body (env w)),
     sent (POST_ticket body) (server w ++ [Controller.newTicket body (env w)]) w).
Proof.
  intros Hon Ht Hc Hnew Hd body.
  rewrite createTicket_sends_defaults by done.
  unfold Api.createTicket. rewrite try_catch_rethrow. unfold mbind, Async_bind.
  rewrite apiRequest_online by done.
  change (Controller.router (POST_ticket (TicketService.withDefaults ticketData))
            (env w) (server w))
    with (Controller.createTicket body (env w) (server w)).
  apply blank_false_truthy in Ht, Hc.
  apply truthy_spec in Hc as (code & Hcode & Hne).
  rewrite (Controller_createTicket_new body (env w) (server w) code); try done.
  intros t Hin Heq. apply (Hnew t Hin). by rewrite Hcode, Heq.
Qed.

Lemma refreshTickets_online (st : UseTickets.State) (w : World) :
  online w = true ->
  UseTickets.refreshTickets st w =
    (tt,
     {| UseTickets.tickets := server w; UseTickets.loading := false;
        UseTickets.lastError := None |},
     sent GET_tickets (server w) w).
Proof.
  intros Hon. unfold UseTickets.refreshTickets, UseTickets.fetchTickets.
  by rewrite fetchTickets_online.
Qed.

(** C5. A create input that passes the validation of the service (its
    title and its code are present and [trim], as the runtime computes it,
    leaves them non-empty) is sent with the defaults filled in for the
    properties it omits: priority MEDIUM, status SCHEDULED, empty notes,
    tags and subtasks, the provided ones kept. And, as [trim] keeps a text
    with a visible character, on a server that has no ticket with the code
    "TCK-100", creating [{ticketId: "TCK-100", title: "X"}] and refreshing
    yields a local collection that holds a ticket with that code, priority
    MEDIUM and status SCHEDULED. *)
Theorem create_applies_defaults_before_sending
    (ticketData : TicketCreateInput) (st : UseTickets.State) (w : World) :
  TicketService.blank (c_title ticketData) = false ->
  TicketService.blank (c_ticketId ticketData) = false ->
  let body := TicketService.withDefaults ticketData in
  requests (snd (TicketService.createTicket ticketData w))
    = requests w ++ [POST_ticket body]
  /\ c_priority body = Some (Js.or_else (c_priority ticketData) MEDIUM)
  /\ c_status body = Some (Js.or_else (c_status ticketData) SCHEDULED)
  /\ c_notes body = Some (Js.or_else (c_notes ticketData) [])
  /\ c_tags body = Some (Js.or_else (c_tags ticketData) [])
  /\ c_subtasks body = Some (Js.or_else (c_subtasks ticketData) [])
  /\ (c_priority ticketData = None -> c_priority body = Some MEDIUM)
  /\ (c_status ticketData = None -> c_status body = Some SCHEDULED)
  /\ (c_notes ticketData = None -> c_notes body = Some [])
  /\ (c_tags ticketData = None -> c_tags body = Some [])
  /\ (c_subtasks ticketData = None -> c_subtasks body = Some [])
  /\ (Js.TrimKeepsGraphic strings ->
      online w = true ->
      (forall t, t ∈ server w -> ticketId t <> "TCK-100") ->
      let '(r, st1, w1) := UseTickets.addTicket tck100 st w in
      let '(_, st2, w2) := UseTickets.refreshTickets st1 w1 in
      exists t,
        r = Some t /\ t ∈ UseTickets.tickets st2
        /\ ticketId t = "TCK-100" /\ title t = "X"
        /\ priority t = MEDIUM /\ status t = SCHEDULED
        /\ notes t = [] /\ tags t = [] /\ subtasks t = []
        /\ UseTickets.tickets st2 = server w ++ [t]).
Proof.
  intros Ht Hc body. split_and!; try done.
  - rewrite createTicket_sends_defaults by done. fold body.
    by destruct (Api_createTicket_world body w) as [tickets' ->].
  - intros H. subst body. simpl. by rewrite H.
  - intros H. subst body. simpl. by rewrite H.
  - intros H. subst body. simpl. by rewrite H.
  - intros H. subst body. simpl. by rewrite H.
  - intros H. subst body. simpl. by rewrite H.
  - intros Hlaw Hon Hnew. unfold UseTickets.addTicket.
    rewrite (createTicket_online_new tck100 w Hon
               (graphic_not_blank "X" Hlaw eq_refl)
               (graphic_not_blank "TCK-100" Hlaw eq_refl)).
    + cbv zeta. rewrite refreshTickets_online by done.
      eexists. split_and!; try reflexivity.
      simpl. apply elem_of_app. right. apply list_elem_of_here.
    + intros t Hin [= Heq]. by apply (Hnew t Hin).
    + done.
Qed.

(* ===================================================================== *)
(** ** The store's operations and failure *)
(* ===================================================================== *)

Lemma addTicket_result (d : TicketCreateInput) :
  ReturnsResult (UseTickets.addTicket d) (TicketService.createTicket d).
Proof.
  exists (fun r => if r is Some _ then true else false). intros st w.
  unfold UseTickets.addTicket.
  destruct (TicketService.createTicket d w) as [[t|e] w']; simpl.
  - split; [by eexists | done].
  - split; [done | by intros [b Hb]].
Qed.

Lemma updateTicket_result (u : TicketUpdateInput) :
  ReturnsResult (UseTickets.updateTicket u) (TicketService.updateTicket u).
Proof.
  exists (fun r => if r is Some _ then true else false). intros st w.
  unfold UseTickets.updateTicket.
  destruct (TicketService.updateTicket u w) as [[t|e] w']; simpl.
  - split; [by eexists | done].
  - split; [done | by intros [b Hb]].
Qed.

Lemma deleteTicket_result (i : string) :
  ReturnsResult (UseTickets.deleteTicket i) (TicketService.deleteTicket i).
Proof.
  exists (fun r => r). intros st w.
  unfold UseTickets.deleteTicket.
  destruct (TicketService.deleteTicket i w) as [[t|e] w']; simpl.
  - split; [by eexists | done].
  - split; [done | by intros [b Hb]].
Qed.

(** C3, amended. When the service call of a store operation rejects, the
    operation still resolves: the local collection is as it was and the
    error slot holds the message of the fault (or the operation's fallback
    message). Create and update then return null and remove returns false,
    and these returned values tell success from failure; refresh returns no
    value, and its failure shows in the error slot alone. *)
Theorem store_operations_contain_failures
    (st : UseTickets.State) (w : World) (err : Thrown) :
  (fst (TicketService.fetchTickets None w) = Rejected err ->
     let '(r, st', w') := UseTickets.refreshTickets st w in
     r = tt
     /\ UseTickets.tickets st' = UseTickets.tickets st
     /\ UseTickets.lastError st'
        = Some (UseTickets.errorMessage err "Failed to fetch tickets")
     /\ UseTickets.loading st' = false)
  /\ (forall d, fst (TicketService.createTicket d w) = Rejected err ->
        let '(r, st', w') := UseTickets.addTicket d st w in
        r = None
        /\ UseTickets.tickets st' = UseTickets.tickets st
        /\ UseTickets.lastError st'
           = Some (UseTickets.errorMessage err "Failed to create ticket"))
  /\ (forall u, fst (TicketService.updateTicket u w) = Rejected err ->
        let '(r, st', w') := UseTickets.updateTicket u st w in
        r = None
        /\ UseTickets.tickets st' = UseTickets.tickets st
        /\ UseTickets.lastError st'
           = Some (UseTickets.errorMessage err "Failed to update ticket"))
  /\ (forall i, fst (TicketService.deleteTicket i w) = Rejected err ->
        let '(r, st', w') := UseTickets.deleteTicket i st w in
        r = false
        /\ UseTickets.tickets st' = UseTickets.tickets st
        /\ UseTickets.lastError st'
           = Some (UseTickets.errorMessage err "Failed to delete ticket"))
  /\ (forall d, ReturnsResult (UseTickets.addTicket d) (TicketService.createTicket d))
  /\ (forall u, ReturnsResult (UseTickets.updateTicket u) (TicketService.updateTicket u))
  /\ (forall i, ReturnsResult (UseTickets.deleteTicket i) (TicketService.deleteTicket i)).
Proof.
  split_and!.
  - unfold UseTickets.refreshTickets, UseTickets.fetchTickets.
    destruct (TicketService.fetchTickets None w) as [[l|e] w']; simpl; [done |].
    by intros [= ->].
  - intros d. unfold UseTickets.addTicket.
    destruct (TicketService.createTicket d w) as [[t|e] w']; simpl; [done |].
    by intros [= ->].
  - intros u. unfold UseTickets.updateTicket.
    destruct (TicketService.updateTicket u w) as [[t|e] w']; simpl; [done |].
    by intros [= ->].
  - intros i. unfold UseTickets.deleteTicket.
    destruct (TicketService.deleteTicket i w) as [[t|e] w']; simpl; [done |].
    by intros [= ->].
  - apply addTicket_result.
  - apply updateTicket_result.
  - apply deleteTicket_result.
Qed.

(* ===================================================================== *)
(** ** Derived metadata *)
(* ===================================================================== *)

Lemma completed_le_total (t : Ticket) :
  (completedSubtasksCount t <= totalSubtasksCount t)%nat.
Proof. apply List.filter_length_le. Qed.

Lemma percentage_of_counts (c : Z) (n : positive) :
  ((c # 1) / (Z.pos n # 1) * 100 == (100 * c) # n)%Q.
Proof. unfold Qeq, Qdiv, Qmult, Qinv. simpl. lia. Qed.

(** C9. The completion percentage is 0 for a ticket without subtasks, is
    otherwise the completed count over the total count scaled by 100, lies
    between 0 and 100, and is 50 for a ticket with 2 of 4 subtasks
    completed. *)
Theorem completionPercentage_of_subtasks (t : Ticket) :
  (totalSubtasksCount t = 0%nat -> completionPercentage t == 0)%Q
  /\ (totalSubtasksCount t <> 0%nat ->
      completionPercentage t * (Z.of_nat (totalSubtasksCount t) # 1)
      == 100 * (Z.of_nat (completedSubtasksCount t) # 1))%Q
  /\ (0 <= completionPercentage t /\ completionPercentage t <= 100)%Q
  /\ (totalSubtasksCount t = 4%nat -> completedSubtasksCount t = 2%nat ->
      completionPercentage t == 50)%Q.
Proof.
  pose proof (completed_le_total t) as Hle.
  unfold completionPercentage.
  destruct (totalSubtasksCount t) as [|n] eqn:Hn; simpl Nat.eqb; cbv iota.
  - split_and!; try done.
  - rewrite Nat2Z.inj_succ, <- Z.add_1_r in *.
    destruct (Z.of_nat n + 1)%Z as [|p|p] eqn:Hp; try lia.
    rewrite percentage_of_counts. split_and!.
    + done.
    + intros _. unfold Qeq, Qmult. simpl. lia.
    + unfold Qle. simpl. lia.
    + unfold Qle. simpl. lia.
    + intros [= ->] ->. simpl in Hp. injection Hp as <-. reflexivity.
Qed.

(* ===================================================================== *)
(** ** The envelope of the REST interface *)
(* ===================================================================== *)

Lemma find_list_find (id' : string) (tickets : list Ticket) :
  List.find (fun t => String.eqb (id t) id') tickets
  = snd <$> list_find (fun t => id t = id') tickets.
Proof.
  induction tickets as [|t l IH]; [done |]. cbn [List.find list_find].
  destruct (decide (id t = id')) as [Heq | Hne].
  - apply String.eqb_eq in Heq. by rewrite Heq.
  - apply String.eqb_neq in Hne. rewrite Hne, IH.
    by destruct (list_find (fun t0 => id t0 = id') l) as [[i x]|].
Qed.

(** X1. Every answer of the controller is a success envelope or a failure
    envelope with a 4xx or 5xx status; a failure leaves the [tickets] array
    as it was, and so does every GET request; and the only answer with
    status 500 is the one to a POST whose deadline is an invalid date, from
    the [catch] of [createTicket]. *)
Theorem router_envelope (r : Request) (e : Env) (tickets : list Ticket) :
  (Success (fst (Controller.router r e tickets))
   \/ exists msg, Failure (fst (Controller.router r e tickets)) msg
                  /\ snd (Controller.router r e tickets) = tickets)
  /\ (isRead r = true -> snd (Controller.router r e tickets) = tickets)
  /\ ((500 <= statusCode (fst (Controller.router r e tickets)))%nat <->
      exists body,
        r = POST_ticket body
        /\ Js.truthy (c_ticketId body) = true /\ Js.truthy (c_title body) = true
        /\ (forall t, t ∈ tickets -> Some (ticketId t) <> c_ticketId body)
        /\ exists v, c_deadline body = Some v /\ Js.validTime v = false).
Proof.
  assert (Hpost : forall i j, ~ exists body : TicketCreateInput,
             GET_ticket i = POST_ticket body /\ j body) by (by intros i j (b & [=] & _)).
  destruct r as [|i|body|i body|i]; simpl.
  - split_and!; [left | done |]. { by repeat split; try eexists. }
    split; [lia | by intros (b & [=] & _)].
  - unfold Controller.getTicketById.
    destruct (List.find _ tickets) as [t|]; simpl; split_and!; try done.
    + left. by repeat split; try eexists.
    + split; [lia | by intros (b & [=] & _)].
    + right. exists "Ticket not found". repeat split; try done; simpl; lia.
    + split; [lia | by intros (b & [=] & _)].
  - split_and!; [| done |].
    + unfold Controller.createTicket.
      destruct (negb (Js.truthy (c_ticketId body)) || negb (Js.truthy (c_title body))).
      * right. exists "Ticket ID and title are required".
        repeat split; try done; simpl; lia.
      * destruct (List.find _ tickets) as [t|]; simpl.
        -- right. exists "Ticket ID already exists".
           repeat split; try done; simpl; lia.
        -- destruct (Controller.deadlineThrows body); simpl.
           ++ right. exists "Failed to create ticket".
              repeat split; try done; simpl; lia.
           ++ left. by repeat split; try eexists.
    + split.
      * unfold Controller.createTicket.
        destruct (Js.truthy (c_ticketId body)) eqn:Hc; [| simpl; lia].
        destruct (Js.truthy (c_title body)) eqn:Ht; [| simpl; lia].
        cbn [negb orb].
        destruct (List.find _ tickets) as [t|] eqn:Hfind; [simpl; lia |].
        unfold Controller.deadlineThrows.
        destruct (c_deadline body) as [v|] eqn:Hd; [| simpl; lia].
        destruct (Js.validTime v) eqn:Hv; [simpl; lia |].
        intros _. exists body. split_and!; try done; [| by exists v].
        intros t Hin Heq. apply list_elem_of_In in Hin.
        pose proof (find_none _ _ Hfind t Hin) as Hneq. simpl in Hneq.
        apply String.eqb_neq in Hneq. apply Hneq.
        apply truthy_spec in Hc as (code & Hcode & Hne).
        rewrite Hcode in Heq |- *. injection Heq as ->.
        by rewrite (or_string_truthy code "" Hne).
      * intros (b & [= <-] & Hc & Ht & Hnew & v & Hd & Hv).
        pose proof Hc as Hc'.
        apply truthy_spec in Hc' as (code & Hcode & Hne).
        unfold Controller.createTicket. rewrite Hc, Ht. cbn [negb orb].
        rewrite find_none_intro.
        -- unfold Controller.deadlineThrows. rewrite Hd, Hv. simpl. lia.
        -- intros t Hin. rewrite Hcode, (or_string_truthy code "" Hne).
           apply String.eqb_neq. intros Heq. apply (Hnew t Hin).
           by rewrite Hcode, Heq.
  - split_and!; [| done |].
    + unfold Controller.updateTicket.
      destruct (list_find _ tickets) as [[j stored]|]; simpl.
      * left. by repeat split; try eexists.
      * right. exists "Ticket not found". repeat split; try done; simpl; lia.
    + unfold Controller.updateTicket.
      destruct (list_find _ tickets) as [[j stored]|]; simpl;
        (split; [lia | by intros (b & [=] & _)]).
  - split_and!; [| done |].
    + unfold Controller.deleteTicket.
      destruct (list_find _ tickets) as [[j stored]|]; simpl.
      * left. by repeat split; try eexists.
      * right. exists "Ticket not found". repeat split; try done; simpl; lia.
    + unfold Controller.deleteTicket.
      destruct (list_find _ tickets) as [[j stored]|]; simpl;
        (split; [lia | by intros (b & [=] & _)]).
Qed.


(* ===================================================================== *)
(** ** The controller's handlers, case by case *)
(* ===================================================================== *)

(** X3. A POST has four outcomes: 400 when the code or the title is
    missing or empty; 400 when the code is already stored; 500 when the
    code is new and the deadline is an invalid date; and otherwise 201 with
    a new ticket appended, which is created and updated now, due at the
    given deadline or now, and not completed, whatever status the body
    gives. The three failures leave the array as it was. *)
Theorem createTicket_outcomes (body : TicketCreateInput) (e : Env)
    (tickets : list Ticket) :
  (Js.truthy (c_ticketId body) = false \/ Js.truthy (c_title body) = false ->
     Controller.createTicket body e tickets
     = (Controller.respondError 400 "Ticket ID and title are required", tickets))
  /\ (Js.truthy (c_ticketId body) = true -> Js.truthy (c_title body) = true ->
      (exists t, t ∈ tickets /\ Some (ticketId t) = c_ticketId body) ->
      Controller.createTicket body e tickets
      = (Controller.respondError 400 "Ticket ID already exists", tickets))
  /\ (Js.truthy (c_ticketId body) = true -> Js.truthy (c_title body) = true ->
      (forall t, t ∈ tickets -> Some (ticketId t) <> c_ticketId body) ->
      forall v, c_deadline body = Some v -> Js.validTime v = false ->
      Controller.createTicket body e tickets
      = (Controller.respondError 500 "Failed to create ticket", tickets))
  /\ (Js.truthy (c_ticketId body) = true -> Js.truthy (c_title body) = true ->
      (forall t, t ∈ tickets -> Some (ticketId t) <> c_ticketId body) ->
      (forall v, c_deadline body = Some v -> Js.validTime v = true) ->
      exists t,
        Controller.createTicket body e tickets
        = (Controller.respond 201 t, tickets ++ [t])
        /\ Some (ticketId t) = c_ticketId body /\ Some (title t) = c_title body
        /\ id t = Controller.generateId e
        /\ createdAt t = now e /\ updatedAt t = now e
        /\ deadline t = Js.or_else (c_deadline body) (now e)
        /\ completedAt t = None).
Proof.
  split_and!.
  - intros H. unfold Controller.createTicket.
    by destruct H as [-> | ->]; [|rewrite orb_true_r].
  - intros Hc Ht (t & Hin & Heq).
    apply truthy_spec in Hc as (code & Hcode & Hne).
    apply (createTicket_existing_code body e tickets code t); try done.
    rewrite Hcode in Heq. by injection Heq.
  - intros Hc Ht Hnew v Hd Hv.
    pose proof Hc as Hc'.
    apply truthy_spec in Hc' as (code & Hcode & Hne).
    unfold Controller.createTicket. rewrite Hc, Ht. cbn [negb orb].
    rewrite find_none_intro.
    + unfold Controller.deadlineThrows. by rewrite Hd, Hv.
    + intros t Hin. rewrite Hcode, (or_string_truthy code "" Hne).
      apply String.eqb_neq. intros Heq. apply (Hnew t Hin).
      by rewrite Hcode, Heq.
  - intros Hc Ht Hnew Hvalid.
    pose proof Hc as Hc'. pose proof Ht as Ht'.
    apply truthy_spec in Hc' as (code & Hcode & Hne).
    apply truthy_spec in Ht' as (ttl & Httl & Hne').
    exists (Controller.newTicket body e). split_and!; try done.
    + apply (Controller_createTicket_new body e tickets code); try done.
      * intros t Hin Heq. apply (Hnew t Hin). by rewrite Hcode, Heq.
      * unfold Controller.deadlineThrows.
        destruct (c_deadline body) as [v|]; [| done].
        by rewrite (Hvalid v eq_refl).
    + simpl. by rewrite Hcode, (or_string_truthy code "" Hne).
    + simpl. by rewrite Httl, (or_string_truthy ttl "" Hne').
Qed.

Lemma addresses_none (id' : string) (tickets : list Ticket) :
  (forall t, t ∈ tickets -> id t <> id') <->
  list_find (fun t => id t = id') tickets = None.
Proof.
  rewrite list_find_None, Forall_forall. split; intros H t Hin; by apply H.
Qed.

Lemma delete_unique_gone (tickets : list Ticket) (i : nat) (stored t : Ticket) :
  UniqueIds tickets -> tickets !! i = Some stored ->
  t ∈ delete i tickets -> id t <> id stored.
Proof.
  unfold UniqueIds. intros Hnd Hi Hin Heq.
  apply list_elem_of_lookup_1 in Hin as [j Hj].
  assert (Hi' : (id <$> tickets) !! i = Some (id stored))
    by (by rewrite list_lookup_fmap, Hi).
  destruct (decide (j < i)) as [Hlt | Hge].
  - rewrite list_lookup_delete_lt in Hj by done.
    assert ((id <$> tickets) !! j = Some (id stored))
      by (by rewrite list_lookup_fmap, Hj; simpl; rewrite Heq).
    pose proof (NoDup_lookup _ _ _ _ Hnd H Hi'). lia.
  - rewrite list_lookup_delete_ge in Hj by lia.
    assert ((id <$> tickets) !! S j = Some (id stored))
      by (by rewrite list_lookup_fmap, Hj; simpl; rewrite Heq).
    pose proof (NoDup_lookup _ _ _ _ Hnd H Hi'). lia.
Qed.

Lemma delete_keeps_others (tickets : list Ticket) (i : nat) (stored t : Ticket) :
  tickets !! i = Some stored -> t ∈ tickets -> id t <> id stored ->
  t ∈ delete i tickets.
Proof.
  intros Hi Hin Hne. apply list_elem_of_lookup_1 in Hin as [j Hj].
  assert (j <> i) by (intros ->; congruence).
  destruct (decide (j < i)) as [Hlt | Hge].
  - apply (list_elem_of_lookup_2 _ j). by rewrite list_lookup_delete_lt.
  - apply (list_elem_of_lookup_2 _ (j - 1)).
    rewrite list_lookup_delete_ge by lia.
    by replace (S (j - 1)) with j by lia.
Qed.

(** X4. A DELETE of a stored identifier answers 200 and removes one entry, the
    first with that identifier: the others stay, in order, and when the
    identifiers are unique none with that identifier is left. A DELETE of
    an identifier that is not stored answers 404 and removes nothing. *)
Theorem deleteTicket_removes_one (id' : string) (e : Env) (tickets : list Ticket) :
  (forall i stored,
     addresses id' tickets i stored ->
     let '(response, tickets') := Controller.deleteTicket id' e tickets in
     statusCode response = 200%nat
     /\ tickets' = take i tickets ++ drop (S i) tickets
     /\ S (length tickets') = length tickets
     /\ tickets' `sublist_of` tickets
     /\ (forall t, t ∈ tickets -> id t <> id' -> t ∈ tickets')
     /\ (UniqueIds tickets -> forall t, t ∈ tickets' -> id t <> id'))
  /\ ((forall t, t ∈ tickets -> id t <> id') ->
      Controller.deleteTicket id' e tickets
      = (Controller.respondError 404 "Ticket not found", tickets)).
Proof.
  split.
  - intros i stored Ha. unfold Controller.deleteTicket.
    unfold addresses in Ha. rewrite Ha.
    apply addresses_lookup in Ha as [Hi Hid]. subst id'.
    split_and!.
    + done.
    + apply delete_take_drop.
    + rewrite length_delete by eauto.
      apply lookup_lt_Some in Hi. lia.
    + apply sublist_delete.
    + intros t Hin Hne. by eapply delete_keeps_others.
    + intros Hnd t Hin. by eapply delete_unique_gone.
  - intros Hnone. unfold Controller.deleteTicket.
    by rewrite (proj1 (addresses_none id' tickets) Hnone).
Qed.

(** X5. Fetching one ticket by an identifier that is one plain path
    segment, on a world whose transport works: the service resolves with
    the first stored ticket that has the identifier, and rejects with
    "Ticket not found" when none has it; the server's array is not
    touched. *)
Theorem fetchTicketById_outcomes (id' : string) (w : World) :
  Js.isPathSegment id' = true ->
  online w = true ->
  (forall i stored,
     addresses id' (server w) i stored ->
     TicketService.fetchTicketById id' w
     = (Resolved stored, sent (GET_ticket id') (server w) w))
  /\ ((forall t, t ∈ server w -> id t <> id') ->
      TicketService.fetchTicketById id' w
      = (Rejected (Error "Ticket not found"),
         sent (GET_ticket id') (server w) w)).
Proof.
  intros _ Hon.
  unfold TicketService.fetchTicketById, Api.fetchTicketById.
  rewrite !try_catch_rethrow. unfold mbind, Async_bind.
  rewrite apiRequest_online by done.
  change (Controller.router (GET_ticket id') (env w) (server w))
    with (Controller.getTicketById id' (env w) (server w)).
  unfold Controller.getTicketById. rewrite find_list_find. split.
  - intros i stored Ha. unfold addresses in Ha. by rewrite Ha.
  - intros Hnone. by rewrite (proj1 (addresses_none id' (server w)) Hnone).
Qed.

(** X6. An update stores, under every key the body names, the value of the
    body, except under the keys the server owns ([id], [createdAt],
    [updatedAt], [completedAt]); [updatedAt] is the server's time, whatever
    the body says. *)
Theorem update_applies_named_fields
    (tickets : list Ticket) (i : nat) (stored : Ticket) (id' : string)
    (body : TicketUpdateInput) (e : Env) :
  addresses id' tickets i stored ->
  let '(r, tickets') := Controller.updateTicket id' body e tickets in
  exists t',
    tickets' !! i = Some t' /\ data (json r) = Some t'
    /\ (forall f v, serverOwned f = false -> payloadValue body f = Some v ->
          get f t' = v)
    /\ updatedAt t' = now e.
Proof.
  intros Ha. rewrite (updateTicket_found _ _ _ _ _ _ Ha).
  apply addresses_lookup in Ha as [Hi _].
  exists (updated stored body e). split_and!; try done.
  - apply list_lookup_insert_eq. by eapply lookup_lt_Some.
  - intros f v Hf Hv. destruct f; try discriminate Hf; simpl in *;
      match goal with
      | H : _ <$> ?o = Some _ |- _ => destruct o; simpl in H; [|discriminate H]
      end; by injection Hv as <-.
Qed.

Lemma elem_of_insert_inv (l : list Ticket) (i : nat) (x t : Ticket) :
  t ∈ <[i := x]> l -> t = x \/ t ∈ l.
Proof.
  intros Hin. apply list_elem_of_lookup_1 in Hin as [j Hj].
  apply list_lookup_insert_Some in Hj as [(_ & -> & _) | (_ & Hj)]; [by left |].
  right. by eapply list_elem_of_lookup_2.
Qed.

(** X7. Handling a request keeps every stored ticket's creation time at or
    before its update time, provided the server's clock is not behind the
    creation time of a stored ticket. *)
Theorem router_keeps_time_order (r : Request) (e : Env) (tickets : list Ticket) :
  TimeOrdered tickets -> CreatedBy (now e) tickets ->
  TimeOrdered (snd (Controller.router r e tickets))
  /\ CreatedBy (now e) (snd (Controller.router r e tickets)).
Proof.
  unfold TimeOrdered, CreatedBy. intros Hord Hby.
  destruct r as [|i|body|i body|i]; simpl.
  - done.
  - unfold Controller.getTicketById. by destruct (List.find _ tickets).
  - unfold Controller.createTicket.
    destruct (negb (Js.truthy (c_ticketId body)) || negb (Js.truthy (c_title body)));
      [done |].
    destruct (List.find _ tickets); [done |].
    destruct (Controller.deadlineThrows body); [done |]. simpl.
    split; intros t Hin; apply elem_of_app in Hin as [Hin | Hin]; auto;
      apply list_elem_of_singleton in Hin; subst t; simpl; lia.
  - unfold Controller.updateTicket.
    destruct (list_find _ tickets) as [[j stored]|] eqn:Hfind; [|done]. simpl.
    apply addresses_lookup in Hfind as [Hj _].
    apply list_elem_of_lookup_2 in Hj.
    split; intros t Hin; apply elem_of_insert_inv in Hin as [-> | Hin]; auto;
      simpl; by apply Hby.
  - unfold Controller.deleteTicket.
    destruct (list_find _ tickets) as [[j stored]|]; [|done]. simpl.
    split; intros t Hin;
      pose proof (elem_of_sublist _ _ _ Hin (sublist_delete tickets j)); auto.
Qed.

(* ===================================================================== *)
(** ** Uniqueness as an invariant of the REST interface *)
(* ===================================================================== *)

Lemma updateTicket_unique_codes id' body e tickets :
  u_ticketId body = None ->
  UniqueCodes tickets -> UniqueCodes (snd (Controller.updateTicket id' body e tickets)).
Proof.
  unfold UniqueCodes. intros Hbody Hnd.
  destruct (list_find (fun t => id t = id') tickets) as [[i stored]|] eqn:Hfind.
  - rewrite (updateTicket_found _ _ _ _ _ _ Hfind). simpl.
    rewrite list_fmap_insert. simpl. rewrite Hbody. simpl.
    rewrite list_insert_id; [done |].
    rewrite list_lookup_fmap.
    by apply addresses_lookup in Hfind as [-> _].
  - by rewrite (updateTicket_missing _ _ _ _ Hfind).
Qed.

(** X8. Every request keeps the stored identifiers unique, a POST provided the
    identifier it generates is not stored yet. *)
Theorem router_keeps_unique_ids (r : Request) (e : Env) (tickets : list Ticket) :
  UniqueIds tickets ->
  (forall body, r = POST_ticket body -> Controller.generateId e ∉ id <$> tickets) ->
  UniqueIds (snd (Controller.router r e tickets)).
Proof.
  intros Hnd Hfresh. destruct r as [|i|body|i body|i]; simpl.
  - done.
  - unfold Controller.getTicketById. by destruct (List.find _ tickets).
  - apply createTicket_unique_ids; [by apply (Hfresh body) | done].
  - by apply updateTicket_unique_ids.
  - by apply deleteTicket_unique.
Qed.

(** X9. Every request keeps the stored ticket codes unique, a PUT provided its
    body does not name the ticket code. *)
Theorem router_keeps_unique_codes (r : Request) (e : Env) (tickets : list Ticket) :
  UniqueCodes tickets ->
  (forall i body, r = PUT_ticket i body -> u_ticketId body = None) ->
  UniqueCodes (snd (Controller.router r e tickets)).
Proof.
  intros Hnd Hput. destruct r as [|i|body|i body|i]; simpl.
  - done.
  - unfold Controller.getTicketById. by destruct (List.find _ tickets).
  - by apply createTicket_unique_codes.
  - apply updateTicket_unique_codes; [by apply (Hput i body) | done].
  - by apply deleteTicket_unique.
Qed.

(* ===================================================================== *)
(** ** The service, operation by operation *)
(* ===================================================================== *)

(** X10. An update whose input has no identifier (missing or empty) is rejected
    by the service before any request: the world is as it was, and the
    store's [updateTicket] returns null, keeps the local collection and
    records the message. *)
Theorem update_without_id_is_rejected
    (u : TicketUpdateInput) (st : UseTickets.State) (w : World) :
  Empty (u_id u) ->
  TicketService.updateTicket u w
  = (Rejected (Error "Ticket ID is required for update"), w)
  /\ let '(r, st', w') := UseTickets.updateTicket u st w in
     r = None /\ w' = w
     /\ UseTickets.tickets st' = UseTickets.tickets st
     /\ UseTickets.lastError st' = Some "Ticket ID is required for update".
Proof.
  intros He.
  assert (Hrun : TicketService.updateTicket u w
                 = (Rejected (Error "Ticket ID is required for update"), w)).
  { unfold TicketService.updateTicket. rewrite try_catch_rethrow.
    by destruct He as [-> | ->]. }
  split; [done |]. unfold UseTickets.updateTicket. by rewrite Hrun.
Qed.

(** X11. Every operation of the service issues exactly one request, of the
    method and path of the operation, whether the transport works or not
    and whatever the server answers; an update puts the identifier in the
    path and sends a body without it. Nothing else of the world changes but
    the server's array. *)
Theorem service_issues_one_request (w : World) :
  (forall filters, exists tickets',
     snd (TicketService.fetchTickets filters w) = sent GET_tickets tickets' w)
  /\ (forall id', exists tickets',
        snd (TicketService.fetchTicketById id' w) = sent (GET_ticket id') tickets' w)
  /\ (forall u id', u_id u = Some id' -> id' <> "" -> exists tickets',
        snd (TicketService.updateTicket u w)
        = sent (PUT_ticket id' (delete_id u)) tickets' w
        /\ u_id (delete_id u) = None)
  /\ (forall id', exists tickets',
        snd (TicketService.deleteTicket id' w) = sent (DELETE_ticket id') tickets' w).
Proof.
  split_and!.
  - intros filters. unfold TicketService.fetchTickets, Api.fetchTickets.
    rewrite !try_catch_rethrow. unfold mbind, Async_bind.
    rewrite ?try_catch_rethrow.
    destruct (apiRequest_world GET_tickets w) as [tickets' Hw]. exists tickets'.
    destruct (Api.apiRequest GET_tickets w) as [[response|err] w']; simpl in *;
      [|done].
    by destruct filters.
  - intros id'. unfold TicketService.fetchTicketById, Api.fetchTicketById.
    rewrite !try_catch_rethrow. unfold mbind, Async_bind.
    rewrite ?try_catch_rethrow.
    destruct (apiRequest_world (GET_ticket id') w) as [tickets' Hw]. exists tickets'.
    destruct (Api.apiRequest (GET_ticket id') w) as [[response|err] w']; simpl in *;
      [|done].
    by destruct (data response).
  - intros u id' Hid Hne. unfold TicketService.updateTicket.
    rewrite try_catch_rethrow.
    assert (Js.truthy (u_id u) = true) as ->.
    { apply truthy_spec. by exists id'. }
    cbn [negb]. unfold Api.updateTicket. rewrite try_catch_rethrow.
    cbv zeta. unfold mbind, Async_bind. rewrite Hid. cbn [Js.or_else].
    destruct (apiRequest_world (PUT_ticket id' (delete_id u)) w) as [tickets' Hw].
    exists tickets'. split; [|done].
    destruct (Api.apiRequest (PUT_ticket id' (delete_id u)) w)
      as [[response|err] w']; simpl in *; [|done].
    by destruct (data response).
  - intros id'. unfold TicketService.deleteTicket, Api.deleteTicket.
    rewrite !try_catch_rethrow. unfold mbind, Async_bind.
    rewrite ?try_catch_rethrow.
    destruct (apiRequest_world (DELETE_ticket id') w) as [tickets' Hw].
    exists tickets'.
    by destruct (Api.apiRequest (DELETE_ticket id') w) as [[response|err] w'].
Qed.

(** X12. Creating a ticket whose code is already stored, with an input that
    passes the validation of the service (title and code present, and
    non-empty once the runtime has trimmed them) and a working transport: the one request is answered 400, the service
    rejects with "Ticket ID already exists", and the store returns null,
    adds nothing on either side and records the message. *)
Theorem create_with_stored_code_is_rejected
    (d : TicketCreateInput) (st : UseTickets.State) (w : World) (t : Ticket) :
  online w = true ->
  TicketService.blank (c_title d) = false ->
  TicketService.blank (c_ticketId d) = false ->
  t ∈ server w -> Some (ticketId t) = c_ticketId d ->
  TicketService.createTicket d w
  = (Rejected (Error "Ticket ID already exists"),
     sent (POST_ticket (TicketService.withDefaults d)) (server w) w)
  /\ let '(r, st', w') := UseTickets.addTicket d st w in
     r = None /\ server w' = server w
     /\ UseTickets.tickets st' = UseTickets.tickets st
     /\ UseTickets.lastError st' = Some "Ticket ID already exists".
Proof.
  intros Hon Ht Hc Hin Hcode.
  assert (Hrun : TicketService.createTicket d w
    = (Rejected (Error "Ticket ID already exists"),
       sent (POST_ticket (TicketService.withDefaults d)) (server w) w)).
  { rewrite createTicket_sends_defaults by done.
    unfold Api.createTicket. rewrite try_catch_rethrow. unfold mbind, Async_bind.
    rewrite apiRequest_online by done.
    change (Controller.router (POST_ticket (TicketService.withDefaults d))
              (env w) (server w))
      with (Controller.createTicket (TicketService.withDefaults d) (env w) (server w)).
    apply blank_false_truthy in Ht, Hc.
    apply truthy_spec in Hc as (code & Hc & Hne).
    rewrite (createTicket_existing_code _ (env w) (server w) code t); try done.
    rewrite Hc in Hcode. by injection Hcode. }
  split; [done |]. unfold UseTickets.addTicket. by rewrite Hrun.
Qed.

Lemma setter_frame (stored : Ticket) (u : TicketUpdateInput) (e : Env) (g f : Field) :
  g <> F_status ->
  (forall f', f' <> g -> f' <> F_id -> names u f' = false) ->
  f <> g -> f <> F_updatedAt ->
  get f (updated stored u e) = get f stored.
Proof.
  intros Hs Hu Hg Hup.
  destruct (decide (f = F_id)) as [-> | Hid]; [done |].
  destruct (decide (f = F_completedAt)) as [-> | Hc].
  - simpl. rewrite (bool_decide_eq_false_2 (u_status u = Some COMPLETED)); [done |].
    pose proof (Hu F_status ltac:(congruence) ltac:(done)) as H. simpl in H.
    apply bool_decide_eq_false in H. intros Heq. apply H. by rewrite Heq.
  - apply updated_frame; try done. by apply Hu.
Qed.

(** X13. The one-field updates of the service, on a working transport and a
    stored ticket: setting the priority, assigning and unassigning resolve
    with the stored ticket changed in that field and in [updatedAt] only,
    and the server stores that ticket; assigning and then unassigning
    leaves the ticket unassigned, with every other field but [updatedAt] as
    at the start. *)
Theorem one_field_updates (id' : string) (w : World) (i : nat) (stored : Ticket) :
  online w = true -> id' <> "" ->
  addresses id' (server w) i stored ->
  (forall p, exists t,
     TicketService.updateTicketPriority id' p w
     = (Resolved t,
        sent (PUT_ticket id' (delete_id (TicketService.priorityInput id' p)))
          (<[i := t]> (server w)) w)
     /\ priority t = p
     /\ forall f, f <> F_priority -> f <> F_updatedAt -> get f t = get f stored)
  /\ (forall userId, exists t,
        TicketService.assignTicket id' userId w
        = (Resolved t,
           sent (PUT_ticket id'
                   (delete_id (TicketService.assigneeInput id' (Some userId))))
             (<[i := t]> (server w)) w)
        /\ assignedTo t = Some userId
        /\ forall f, f <> F_assignedTo -> f <> F_updatedAt -> get f t = get f stored)
  /\ (exists t,
        TicketService.unassignTicket id' w
        = (Resolved t,
           sent (PUT_ticket id' (delete_id (TicketService.assigneeInput id' None)))
             (<[i := t]> (server w)) w)
        /\ assignedTo t = None
        /\ forall f, f <> F_assignedTo -> f <> F_updatedAt -> get f t = get f stored)
  /\ (forall userId, exists t,
        fst (TicketService.unassignTicket id'
               (snd (TicketService.assignTicket id' userId w))) = Resolved t
        /\ assignedTo t = None
        /\ forall f, f <> F_assignedTo -> f <> F_updatedAt -> get f t = get f stored).
Proof.
  intros Hon Hne Ha.
  assert (Hp : forall p,
    TicketService.updateTicketPriority id' p w
    = (Resolved (updated stored (TicketService.priorityInput id' p) (env w)),
       sent (PUT_ticket id' (delete_id (TicketService.priorityInput id' p)))
         (<[i := updated stored (TicketService.priorityInput id' p) (env w)]>
            (server w)) w)).
  { intros p. unfold TicketService.updateTicketPriority. rewrite try_catch_rethrow.
    by apply updateTicket_online. }
  assert (Hassign : forall w' stored' o,
    online w' = true -> addresses id' (server w') i stored' ->
    try_catch (TicketService.updateTicket (TicketService.assigneeInput id' o)) throw w'
    = (Resolved (updated stored' (TicketService.assigneeInput id' o) (env w')),
       sent (PUT_ticket id' (delete_id (TicketService.assigneeInput id' o)))
         (<[i := updated stored' (TicketService.assigneeInput id' o) (env w')]>
            (server w')) w')).
  { intros w' stored' o Hon' Ha'. rewrite try_catch_rethrow.
    by apply updateTicket_online. }
  split_and!.
  - intros p. eexists. split_and!; [apply Hp | done |].
    intros f Hf Hu. apply (setter_frame _ _ _ F_priority); try done.
    intros f' H1 H2. by destruct f'.
  - intros userId. eexists. split_and!; [by apply Hassign | done |].
    intros f Hf Hu. apply (setter_frame _ _ _ F_assignedTo); try done.
    intros f' H1 H2. by destruct f'.
  - eexists. split_and!; [by apply Hassign | done |].
    intros f Hf Hu. apply (setter_frame _ _ _ F_assignedTo); try done.
    intros f' H1 H2. by destruct f'.
  - intros userId. unfold TicketService.assignTicket, TicketService.unassignTicket.
    rewrite (Hassign w stored (Some userId) Hon Ha). cbn [snd].
    rewrite (Hassign _ (updated stored (TicketService.assigneeInput id' (Some userId))
                          (env w)) None).
    + eexists. split_and!; [done | done |].
      intros f Hf Hu. rewrite (setter_frame _ _ _ F_assignedTo); try done.
      * apply (setter_frame _ _ _ F_assignedTo); try done.
        intros f' H1 H2. by destruct f'.
      * intros f' H1 H2. by destruct f'.
    + done.
    + apply (addresses_insert _ _ _ stored); [done |].
      by apply addresses_lookup in Ha as [_ Hid].
Qed.

Lemma List_filter_decide {A} (f : A -> bool) (P : A -> Prop)
    `{!forall x, Decision (P x)} (l : list A) :
  (forall x, f x = true <-> P x) -> List.filter f l = filter P l.
Proof.
  intros Hf. induction l as [|x l IH]; [done |]. simpl. rewrite filter_cons.
  destruct (decide (P x)) as [HP | HP].
  - apply Hf in HP. rewrite HP. by f_equal.
  - destruct (f x) eqn:E; [|done]. by apply Hf in E.
Qed.

Lemma keep_status_only (s : Status) (t : Ticket) :
  TicketService.keep
    {| f_status := Some [s]; f_priority := None; f_category := None;
       f_csamName := None; f_customerName := None; f_assignedTo := None;
       f_tags := None; f_search := None |} t = true
  <-> status t = s.
Proof.
  unfold TicketService.keep. simpl.
  destruct (bool_decide (s = status t)) eqn:E; simpl.
  - apply bool_decide_eq_true in E. by split.
  - apply bool_decide_eq_false in E. by split.
Qed.

Lemma keep_priority_only (p : Priority) (t : Ticket) :
  TicketService.keep
    {| f_status := None; f_priority := Some [p]; f_category := None;
       f_csamName := None; f_customerName := None; f_assignedTo := None;
       f_tags := None; f_search := None |} t = true
  <-> priority t = p.
Proof.
  unfold TicketService.keep. simpl.
  destruct (bool_decide (p = priority t)) eqn:E; simpl.
  - apply bool_decide_eq_true in E. by split.
  - apply bool_decide_eq_false in E. by split.
Qed.

(** X14. The by-status and by-priority queries of the service, on a working
    transport, resolve with exactly the stored tickets of that status, or
    of that priority, in the order of the collection. *)
Theorem tickets_by_status_and_priority (w : World) :
  online w = true ->
  (forall s,
     TicketService.getTicketsByStatus s w
     = (Resolved (filter (fun t => status t = s) (server w)),
        sent GET_tickets (server w) w))
  /\ (forall p,
        TicketService.getTicketsByPriority p w
        = (Resolved (filter (fun t => priority t = p) (server w)),
           sent GET_tickets (server w) w)).
Proof.
  intros Hon. split.
  - intros s. unfold TicketService.getTicketsByStatus.
    rewrite fetchTickets_online by done. do 2 f_equal.
    apply List_filter_decide. intros t. apply keep_status_only.
  - intros p. unfold TicketService.getTicketsByPriority.
    rewrite fetchTickets_online by done. do 2 f_equal.
    apply List_filter_decide. intros t. apply keep_priority_only.
Qed.

(** X15. The overdue query of the service, on a working transport, resolves
    with exactly the stored tickets whose status is OVERDUE and whose
    deadline is before the browser's clock, in order: a ticket past its
    deadline with any other status is not among them. *)
Theorem overdue_tickets (w : World) :
  online w = true ->
  TicketService.getOverdueTickets w
  = (Resolved
       (filter (fun t => status t = OVERDUE /\ (deadline t < clientClock w)%Z)
          (server w)),
     sent GET_tickets (server w) w)
  /\ (forall t, status t <> OVERDUE ->
        t ∉ filter (fun t => status t = OVERDUE /\ (deadline t < clientClock w)%Z)
              (server w)).
Proof.
  intros Hon. split.
  - unfold TicketService.getOverdueTickets, newDate. unfold mbind, Async_bind.
    rewrite fetchTickets_online by done. unfold mret, Async_ret. simpl.
    f_equal. f_equal.
    rewrite (List_filter_decide _ (fun t => status t = OVERDUE) (server w)
               (keep_status_only OVERDUE)).
    rewrite (List_filter_decide _
               (fun t => (deadline t < clientClock w)%Z /\ status t <> COMPLETED)).
    + rewrite (list_filter_filter
                 (fun t => (deadline t < clientClock w)%Z /\ status t <> COMPLETED)
                 (fun t => status t = OVERDUE)).
      apply list_filter_iff. intros t.
      split; [intros [[H1 H2] H3]; by split |].
      intros [H1 H2]. split; [split |]; try done. by rewrite H1.
    + intros t. rewrite andb_true_iff, Z.ltb_lt, negb_true_iff.
      by rewrite bool_decide_eq_false.
  - intros t Hs Hin. apply list_elem_of_filter in Hin as [[Hst _] _]. done.
Qed.

(* ===================================================================== *)
(** ** The local collection and the server's array *)
(* ===================================================================== *)

Lemma createTicket_effect (d : TicketCreateInput) (w : World) :
  answered w = true ->
  match TicketService.createTicket d w with
  | (Resolved t, w') => server w' = server w ++ [t]
  | (Rejected _, w') => server w' = server w
  end.
Proof.
  intros Hans.
  unfold TicketService.createTicket. rewrite try_catch_rethrow.
  destruct (TicketService.blank (c_title d)); [done |].
  destruct (TicketService.blank (c_ticketId d)); [done |].
  cbv zeta. unfold Api.createTicket. rewrite try_catch_rethrow.
  unfold mbind, Async_bind. destruct (online w) eqn:Hon.
  - rewrite apiRequest_online by done.
    change (Controller.router (POST_ticket (TicketService.withDefaults d))
              (env w) (server w))
      with (Controller.createTicket (TicketService.withDefaults d) (env w) (server w)).
    unfold Controller.createTicket.
    destruct (negb (Js.truthy (c_ticketId (TicketService.withDefaults d)))
              || negb (Js.truthy (c_title (TicketService.withDefaults d))));
      [done |].
    destruct (List.find _ (server w)); [done |].
    by destruct (Controller.deadlineThrows (TicketService.withDefaults d)).
  - rewrite apiRequest_offline by done.
    by rewrite (answered_offline w Hans Hon).
Qed.

Lemma updateTicket_effect (u : TicketUpdateInput) (w : World) :
  answered w = true ->
  match TicketService.updateTicket u w with
  | (Resolved t, w') =>
      exists i stored, addresses (id t) (server w) i stored
                       /\ server w' = <[i := t]> (server w)
  | (Rejected _, w') => server w' = server w
  end.
Proof.
  intros Hans.
  unfold TicketService.updateTicket. rewrite try_catch_rethrow.
  destruct (negb (Js.truthy (u_id u))); [done |].
  unfold Api.updateTicket. rewrite try_catch_rethrow. cbv zeta.
  unfold mbind, Async_bind. destruct (online w) eqn:Hon.
  - rewrite apiRequest_online by done.
    set (id' := Js.or_else (u_id u) "undefined").
    change (Controller.router (PUT_ticket id' (delete_id u)) (env w) (server w))
      with (Controller.updateTicket id' (delete_id u) (env w) (server w)).
    destruct (list_find (fun t => id t = id') (server w)) as [[i stored]|] eqn:Hfind.
    + rewrite (updateTicket_found _ _ _ _ _ _ Hfind). simpl.
      exists i, stored. split; [|done].
      pose proof (addresses_lookup _ _ _ _ Hfind) as [_ Hid].
      unfold addresses. by rewrite Hid.
    + by rewrite (updateTicket_missing _ _ _ _ Hfind).
  - rewrite apiRequest_offline by done.
    by rewrite (answered_offline w Hans Hon).
Qed.

Lemma deleteTicket_effect (id' : string) (w : World) :
  answered w = true ->
  match TicketService.deleteTicket id' w with
  | (Resolved _, w') =>
      exists i stored, addresses id' (server w) i stored
                       /\ server w' = delete i (server w)
  | (Rejected err, w') =>
      server w' = server w
      /\ (online w = true ->
          err = Error "Ticket not found" /\ forall t, t ∈ server w -> id t <> id')
  end.
Proof.
  intros Hans.
  unfold TicketService.deleteTicket, Api.deleteTicket. rewrite !try_catch_rethrow.
  unfold mbind, Async_bind. destruct (online w) eqn:Hon.
  - rewrite apiRequest_online by done.
    change (Controller.router (DELETE_ticket id') (env w) (server w))
      with (Controller.deleteTicket id' (env w) (server w)).
    unfold Controller.deleteTicket.
    destruct (list_find (fun t => id t = id') (server w)) as [[i stored]|] eqn:Hfind.
    + simpl. by exists i, stored.
    + simpl. split; [done |]. intros _. split; [done |].
      by apply addresses_none.
  - rewrite apiRequest_offline by done.
    rewrite (answered_offline w Hans Hon). by split.
Qed.

Lemma fetchTickets_effect (w : World) :
  match TicketService.fetchTickets None w with
  | (Resolved l, w') => l = server w /\ server w' = server w
  | (Rejected _, w') => server w' = server w
  end.
Proof.
  destruct (online w) eqn:Hon.
  - by rewrite fetchTickets_online.
  - unfold TicketService.fetchTickets, Api.fetchTickets.
    rewrite !try_catch_rethrow. unfold mbind, Async_bind.
    rewrite ?try_catch_rethrow. rewrite apiRequest_offline by done.
    by destruct (arrives w).
Qed.

Lemma map_replace_absent (l : list Ticket) (t : Ticket) :
  id t ∉ id <$> l ->
  List.map (fun ticket => if String.eqb (id ticket) (id t) then t else ticket) l = l.
Proof.
  induction l as [|x l IH]; [done |]. rewrite fmap_cons, not_elem_of_cons.
  intros [Hx Hl]. simpl. rewrite IH by done.
  assert (id x <> id t) as Hne by congruence.
  apply String.eqb_neq in Hne. by rewrite Hne.
Qed.

(** With unique identifiers, replacing every ticket that has the
    identifier of [t] is storing [t] in the slot of the one that has it. *)
Lemma map_replace_unique (l : list Ticket) (i : nat) (stored t : Ticket) :
  UniqueIds l -> l !! i = Some stored -> id t = id stored ->
  List.map (fun ticket => if String.eqb (id ticket) (id t) then t else ticket) l
  = <[i := t]> l.
Proof.
  unfold UniqueIds. revert i. induction l as [|x l IH]; intros i Hnd Hi Hid; [done |].
  rewrite fmap_cons in Hnd. apply NoDup_cons in Hnd as [Hx Hnd].
  destruct i as [|i]; simpl in *.
  - injection Hi as ->. rewrite Hid, String.eqb_refl. f_equal.
    rewrite <- Hid. apply map_replace_absent. by rewrite Hid.
  - assert (id stored ∈ id <$> l) as Hin.
    { apply list_elem_of_fmap_2. by eapply list_elem_of_lookup_2. }
    assert (id x <> id t) as Hne by (intros Heq; apply Hx; congruence).
    apply String.eqb_neq in Hne. rewrite Hne. f_equal. by apply IH.
Qed.

Lemma filter_remove_absent (l : list Ticket) (id' : string) :
  id' ∉ id <$> l ->
  List.filter (fun ticket => negb (String.eqb (id ticket) id')) l = l.
Proof.
  induction l as [|x l IH]; [done |]. rewrite fmap_cons, not_elem_of_cons.
  intros [Hx Hl]. simpl. rewrite IH by done.
  assert (id x <> id') as Hne by congruence.
  apply String.eqb_neq in Hne. by rewrite Hne.
Qed.

(** With unique identifiers, filtering out the tickets that have an
    identifier is deleting the slot of the one that has it. *)
Lemma filter_remove_unique (l : list Ticket) (i : nat) (stored : Ticket) :
  UniqueIds l -> l !! i = Some stored ->
  List.filter (fun ticket => negb (String.eqb (id ticket) (id stored))) l
  = delete i l.
Proof.
  unfold UniqueIds. revert i. induction l as [|x l IH]; intros i Hnd Hi; [done |].
  rewrite fmap_cons in Hnd. apply NoDup_cons in Hnd as [Hx Hnd].
  destruct i as [|i]; simpl in *.
  - injection Hi as ->. rewrite String.eqb_refl. simpl.
    by apply filter_remove_absent.
  - assert (id stored ∈ id <$> l) as Hin.
    { apply list_elem_of_fmap_2. by eapply list_elem_of_lookup_2. }
    assert (id x <> id stored) as Hne by (intros Heq; apply Hx; congruence).
    apply String.eqb_neq in Hne. rewrite Hne. simpl. f_equal. by apply IH.
Qed.

(** X16. When the local collection equals the server's array and the stored
    identifiers are unique, it still equals the server's array after a
    refresh, and after an add, an update or a removal whose identifier is
    one plain path segment, whether the server accepted the request,
    refused it (400, 404, 500), or the request did not reach the server:
    in every case but the one where the server handles the request and its
    response is lost. *)
Theorem store_stays_coherent (st : UseTickets.State) (w : World) :
  UseTickets.tickets st = server w -> UniqueIds (server w) ->
  (answered w = true ->
   (forall d, let '(_, st', w') := UseTickets.addTicket d st w in
              UseTickets.tickets st' = server w')
   /\ (forall u,
         (forall id', u_id u = Some id' -> id' <> "" ->
                      Js.isPathSegment id' = true) ->
         let '(_, st', w') := UseTickets.updateTicket u st w in
         UseTickets.tickets st' = server w')
   /\ (forall i, Js.isPathSegment i = true ->
                 let '(_, st', w') := UseTickets.deleteTicket i st w in
                 UseTickets.tickets st' = server w'))
  /\ (let '(_, st', w') := UseTickets.refreshTickets st w in
      UseTickets.tickets st' = server w').
Proof.
  intros Hco Hnd. split; [intros Hans; split_and! |].
  - intros d. unfold UseTickets.addTicket.
    pose proof (createTicket_effect d w Hans) as H.
    destruct (TicketService.createTicket d w) as [[t|err] w']; simpl; congruence.
  - intros u _. unfold UseTickets.updateTicket.
    pose proof (updateTicket_effect u w Hans) as H.
    destruct (TicketService.updateTicket u w) as [[t|err] w']; simpl; [|congruence].
    destruct H as (i & stored & Ha & ->). rewrite Hco.
    apply addresses_lookup in Ha as [Hi Hid].
    by apply (map_replace_unique _ _ stored).
  - intros i _. unfold UseTickets.deleteTicket.
    pose proof (deleteTicket_effect i w Hans) as H.
    destruct (TicketService.deleteTicket i w) as [[t|err] w']; simpl.
    + destruct H as (j & stored & Ha & ->). rewrite Hco.
      apply addresses_lookup in Ha as [Hj <-].
      by apply filter_remove_unique.
    + destruct H as [-> _]. done.
  - unfold UseTickets.refreshTickets, UseTickets.fetchTickets.
    pose proof (fetchTickets_effect w) as H.
    destruct (TicketService.fetchTickets None w) as [[l|err] w']; simpl.
    + by destruct H as [-> ->].
    + congruence.
Qed.

(** X17. Removing through the store by an identifier that is one plain
    path segment, on a working transport, with the local collection equal
    to the server's array and unique identifiers: for a stored identifier
    the store returns true, exactly one entry leaves the local collection,
    none with that identifier is left and the error slot is clear; for an
    identifier that is not stored it returns false, keeps the collection
    and records "Ticket not found". *)
Theorem remove_through_store (id' : string) (st : UseTickets.State) (w : World) :
  Js.isPathSegment id' = true ->
  online w = true ->
  UseTickets.tickets st = server w -> UniqueIds (server w) ->
  (forall i stored,
     addresses id' (server w) i stored ->
     let '(r, st', w') := UseTickets.deleteTicket id' st w in
     r = true
     /\ UseTickets.tickets st' = delete i (UseTickets.tickets st)
     /\ S (length (UseTickets.tickets st')) = length (UseTickets.tickets st)
     /\ (forall t, t ∈ UseTickets.tickets st' -> id t <> id')
     /\ (forall t, t ∈ UseTickets.tickets st -> id t <> id' ->
           t ∈ UseTickets.tickets st')
     /\ UseTickets.lastError st' = None
     /\ server w' = UseTickets.tickets st')
  /\ ((forall t, t ∈ server w -> id t <> id') ->
      let '(r, st', w') := UseTickets.deleteTicket id' st w in
      r = false
      /\ UseTickets.tickets st' = UseTickets.tickets st
      /\ UseTickets.lastError st' = Some "Ticket not found"
      /\ server w' = server w).
Proof.
  intros _ Hon Hco Hnd.
  assert (Hans : answered w = true) by (unfold answered; by rewrite Hon).
  pose proof (deleteTicket_effect id' w Hans) as H.
  unfold UseTickets.deleteTicket.
  destruct (TicketService.deleteTicket id' w) as [[[]|err] w']; simpl; split.
  - intros i stored Ha. destruct H as (j & stored' & Ha' & Hw).
    unfold addresses in Ha, Ha'. rewrite Ha in Ha'. injection Ha' as <- <-.
    apply addresses_lookup in Ha as [Hi <-].
    assert (Hdel : List.filter (fun ticket => negb (String.eqb (id ticket) (id stored)))
                     (UseTickets.tickets st) = delete i (UseTickets.tickets st)).
    { rewrite Hco. by apply filter_remove_unique. }
    rewrite Hdel, Hco. split_and!; try done.
    + rewrite length_delete by eauto. apply lookup_lt_Some in Hi. lia.
    + intros t Hin. by eapply delete_unique_gone.
    + intros t Hin Hne. by eapply delete_keeps_others.
  - intros Hnone. destruct H as (j & stored' & Ha' & _).
    apply addresses_lookup in Ha' as [Hj Hid].
    apply list_elem_of_lookup_2 in Hj. by destruct (Hnone stored' Hj).
  - intros i stored Ha. destruct H as [_ H]. destruct (H Hon) as [_ Hnone].
    apply addresses_lookup in Ha as [Hi Hid].
    apply list_elem_of_lookup_2 in Hi. by destruct (Hnone stored Hi).
  - intros _. destruct H as [Hw H]. destruct (H Hon) as [-> _]. by split_and!.
Qed.

(* ===================================================================== *)
(** ** The board *)
(* ===================================================================== *)

Lemma getTicketsByStatus_cons (x : Ticket) (l : list Ticket) (s : Status) :
  KanbanBoard.getTicketsByStatus (x :: l) s
  = if bool_decide (status x = s)
    then x :: KanbanBoard.getTicketsByStatus l s
    else KanbanBoard.getTicketsByStatus l s.
Proof. reflexivity. Qed.

(** X18. The columns of the board split the tickets: there is one column per
    status, a ticket is in the column of its status and in no other, every
    column keeps the order of the collection, and the columns together hold
    the tickets of the collection, each as often as the collection does. *)
Theorem columns_partition (tickets : list Ticket) :
  NoDup KanbanBoard.KANBAN_STATUSES
  /\ (forall s, s ∈ KanbanBoard.KANBAN_STATUSES)
  /\ fst <$> KanbanBoard.columns tickets = KanbanBoard.KANBAN_STATUSES
  /\ (forall t s, t ∈ KanbanBoard.getTicketsByStatus tickets s
                  <-> t ∈ tickets /\ status t = s)
  /\ (forall s, KanbanBoard.getTicketsByStatus tickets s `sublist_of` tickets)
  /\ concat (snd <$> KanbanBoard.columns tickets) ≡ₚ tickets.
Proof.
  split_and!.
  - apply (bool_decide_unpack _). by vm_compute.
  - intros s. destruct s; apply (bool_decide_unpack _); by vm_compute.
  - reflexivity.
  - intros t s. unfold KanbanBoard.getTicketsByStatus.
    rewrite list_elem_of_In, filter_In, <- list_elem_of_In, bool_decide_eq_true.
    done.
  - intros s. unfold KanbanBoard.getTicketsByStatus.
    rewrite (List_filter_decide _ (fun t => status t = s)).
    + apply sublist_filter.
    + intros t. apply bool_decide_eq_true.
  - unfold KanbanBoard.columns, KanbanBoard.KANBAN_STATUSES. simpl.
    rewrite app_nil_r.
    induction tickets as [|x l IH]; [done |].
    rewrite !getTicketsByStatus_cons.
    destruct (status x); simpl; rewrite <- ?Permutation_middle; by constructor.
Qed.

(** X19. A drop on the board keeps the number, the order and the identifiers of
    the tickets; a ticket with another identifier is untouched; a ticket
    with the dropped identifier gets the new status and the browser's time
    as update time, and as completion time if the status is COMPLETED (its
    completion time is kept otherwise), and nothing else changes; after the
    drop every ticket with that identifier is in the column of the new
    status. The board notifies [onTicketUpdate] once per moved ticket: not
    at all when no ticket has the identifier, in which case the board is
    unchanged. *)
Theorem handleDrop_moves (ticketId' : string) (newStatus : Status)
    (today : Timestamp) (prevTickets : list Ticket) :
  let '(next, calls) :=
    KanbanBoard.handleDrop ticketId' newStatus today prevTickets in
  id <$> next = id <$> prevTickets
  /\ length next = length prevTickets
  /\ (forall j t, prevTickets !! j = Some t -> id t <> ticketId' ->
        next !! j = Some t)
  /\ (forall j t, prevTickets !! j = Some t -> id t = ticketId' ->
        exists t', next !! j = Some t'
          /\ status t' = newStatus /\ updatedAt t' = today
          /\ completedAt t'
             = (if bool_decide (newStatus = COMPLETED)
                then Some today else completedAt t)
          /\ forall f, f <> F_status -> f <> F_updatedAt -> f <> F_completedAt ->
               get f t' = get f t)
  /\ (forall t s, t ∈ KanbanBoard.getTicketsByStatus next s -> id t = ticketId' ->
        s = newStatus)
  /\ Forall (fun c => c = (ticketId', newStatus)) calls
  /\ length calls
     = length (List.filter (fun t => String.eqb (id t) ticketId') prevTickets)
  /\ ((forall t, t ∈ prevTickets -> id t <> ticketId') ->
      next = prevTickets /\ calls = []).
Proof.
  unfold KanbanBoard.handleDrop.
  change (List.map ?f prevTickets) with (f <$> prevTickets).
  split_and!.
  - rewrite <- list_fmap_compose. apply list_fmap_ext. intros j t _. simpl.
    by destruct (String.eqb (id t) ticketId').
  - apply length_fmap.
  - intros j t Hj Hne. rewrite list_lookup_fmap, Hj. simpl.
    apply String.eqb_neq in Hne. by rewrite Hne.
  - intros j t Hj Heq. rewrite list_lookup_fmap, Hj. simpl.
    apply String.eqb_eq in Heq. rewrite Heq. eexists. split_and!; try done.
    intros f Hs Hu Hc. by destruct f.
  - intros t s Hin Hid. unfold KanbanBoard.getTicketsByStatus in Hin.
    apply list_elem_of_In, filter_In in Hin as [Hin Hs].
    apply bool_decide_eq_true in Hs. apply list_elem_of_In in Hin.
    apply list_elem_of_fmap in Hin as (t0 & -> & _).
    destruct (String.eqb (id t0) ticketId') eqn:E; [by subst s |].
    apply String.eqb_neq in E. done.
  - induction prevTickets as [|x l IH]; simpl; [done |].
    destruct (String.eqb (id x) ticketId'); simpl; [by constructor | done].
  - induction prevTickets as [|x l IH]; simpl; [done |].
    destruct (String.eqb (id x) ticketId'); simpl; by rewrite IH.
  - intros Hnone. induction prevTickets as [|x l IH]; [done |].
    assert (id x <> ticketId') as Hne by (apply Hnone, list_elem_of_here).
    apply String.eqb_neq in Hne. rewrite fmap_cons. simpl. rewrite Hne.
    destruct IH as [-> ->]; [|done].
    intros t Hin. by apply Hnone, list_elem_of_further.
Qed.

(** X20. A drop reported to the dashboard, on a working transport and a stored
    ticket: the ticket the server stores agrees with the ticket the board
    shows in every field but the two time stamps, which the board takes
    from the browser's clock and the server from its own; both are
    completed, or both keep the stored completion time. *)
Theorem drop_agrees_with_server
    (id' : string) (s : Status) (today : Timestamp)
    (st : UseTickets.State) (w : World) (i : nat) (stored : Ticket) :
  online w = true -> id' <> "" ->
  addresses id' (server w) i stored ->
  let '(_, st', w') := Dashboard.handleTicketUpdate id' s st w in
  exists t,
    server w' !! i = Some t
    /\ requests w' = requests w ++ [PUT_ticket id' (delete_id (Dashboard.statusOnly id' s))]
    /\ UseTickets.lastError st' = None
    /\ (forall f, f <> F_updatedAt -> f <> F_completedAt ->
          get f t = get f (KanbanBoard.moved stored s today))
    /\ updatedAt t = now (env w)
    /\ completedAt t
       = (if bool_decide (s = COMPLETED)
          then Some (now (env w)) else completedAt stored).
Proof.
  intros Hon Hne Ha. unfold Dashboard.handleTicketUpdate, UseTickets.updateTicket.
  rewrite (updateTicket_online (Dashboard.statusOnly id' s) id' w i stored);
    try done.
  pose proof (addresses_lookup _ _ _ _ Ha) as [Hi _].
  exists (updated stored (Dashboard.statusOnly id' s) (env w)).
  split_and!; try done.
  - simpl. apply list_lookup_insert_eq. by eapply lookup_lt_Some.
  - intros f Hu Hc. by destruct f.
  - rewrite completedAt_updated. by destruct s.
Qed.

(* ===================================================================== *)
(** ** The create form *)
(* ===================================================================== *)

(** X21. Submitting the create form: when the service rejects the creation, the
    modal stays as it was, the form keeps its input, the store records the
    message and the local collection is unchanged; when the service
    resolves, the modal is closed, the form is reset and the new ticket is
    at the end of the local collection. Either way the page is no longer
    submitting. A form that was just reset is itself rejected, for its
    empty title, without a request. *)
Theorem handleSubmit_outcomes
    (page : Dashboard.State) (st : UseTickets.State) (w : World) :
  (forall err,
     fst (TicketService.createTicket (Dashboard.formData page) w) = Rejected err ->
     let '(page', st', w') := Dashboard.handleSubmit page st w in
     Dashboard.isCreateModalOpen page' = Dashboard.isCreateModalOpen page
     /\ Dashboard.formData page' = Dashboard.formData page
     /\ Dashboard.isSubmitting page' = false
     /\ UseTickets.tickets st' = UseTickets.tickets st
     /\ UseTickets.lastError st'
        = Some (UseTickets.errorMessage err "Failed to create ticket"))
  /\ (forall t,
        fst (TicketService.createTicket (Dashboard.formData page) w) = Resolved t ->
        let '(page', st', w') := Dashboard.handleSubmit page st w in
        Dashboard.isCreateModalOpen page' = false
        /\ Dashboard.formData page' = Dashboard.emptyForm (clientClock w)
        /\ Dashboard.isSubmitting page' = false
        /\ UseTickets.tickets st' = UseTickets.tickets st ++ [t]
        /\ UseTickets.lastError st' = None)
  /\ (forall today,
        Dashboard.formData page = Dashboard.emptyForm today ->
        let '(page', st', w') := Dashboard.handleSubmit page st w in
        w' = w
        /\ Dashboard.isCreateModalOpen page' = Dashboard.isCreateModalOpen page
        /\ UseTickets.lastError st' = Some "Ticket title is required").
Proof.
  unfold Dashboard.handleSubmit, UseTickets.addTicket. cbv zeta.
  change (Dashboard.formData (Dashboard.setIsSubmitting true page))
    with (Dashboard.formData page).
  split_and!.
  - intros err H.
    destruct (TicketService.createTicket (Dashboard.formData page) w)
      as [[t|e] w']; simpl in *; [done |]. by injection H as ->.
  - intros t H.
    pose proof (createTicket_sends_defaults (Dashboard.formData page) w) as Hs.
    pose proof (Api_createTicket_world
                  (TicketService.withDefaults (Dashboard.formData page)) w)
      as [tickets' Hw].
    assert (Hclock : clientClock (snd (TicketService.createTicket
                                         (Dashboard.formData page) w))
                     = clientClock w).
    { unfold TicketService.createTicket in *. rewrite try_catch_rethrow in *.
      destruct (TicketService.blank (c_title (Dashboard.formData page)));
        [done |].
      destruct (TicketService.blank (c_ticketId (Dashboard.formData page)));
        [done |].
      cbv zeta. by rewrite Hw. }
    destruct (TicketService.createTicket (Dashboard.formData page) w)
      as [[t'|e] w']; simpl in *; [|done].
    injection H as ->. by rewrite Hclock.
  - intros today Hform. rewrite Hform.
    unfold TicketService.createTicket. by rewrite try_catch_rethrow.
Qed.

End Properties.

(* ===================================================================== *)
(** ** The properties on the seeded tickets *)
(* ===================================================================== *)

(** The examples run on texts of ASCII characters. *)
#[local] Existing Instance Js.asciiStrings.

Lemma filtered_fetch_exact_witness :
  fst (TicketService.fetchTickets (Some (onlyStatus [COMPLETED]))
         (exampleWorld exampleCollection))
    = Resolved (List.tl exampleCollection).
Proof.
  pose proof (filtered_fetch_exact (onlyStatus [COMPLETED])
                (exampleWorld exampleCollection) eq_refl) as H.
  destruct H as (_ & _ & _ & _ & _ & _ & H & _).
  exact (H _ _ _ eq_refl eq_refl eq_refl eq_refl).
Defined.

(** C7 as stated fails: the search "bugpayment" occurs in the plain
    concatenation of the title and the description of the second seeded
    ticket, and the search filter does not match the ticket. *)
Lemma search_concatenation_counterexample :
  ~ (TicketService.keep (onlySearch "bugpayment") Controller.ticket2 = true
     <-> Substring (Js.toLowerCase "bugpayment")
                   (Js.toLowerCase (concatenation Controller.ticket2))).
Proof.
  intros [_ H]. cut (TicketService.keep (onlySearch "bugpayment") Controller.ticket2 = true).
  - vm_compute. discriminate.
  - apply H. exists "fix payment processing ",
      " gateway integration issuetck-002tech startupjane smith".
    reflexivity.
Qed.

Lemma search_matches_joined_text_witness :
  TicketService.keep (onlySearch "payment")
    (Controller.mkTicket "7" "TCK-007" "Checkout fails" "Payment gateway issue"
       HIGH ACTIVE "Bug" 0 None 0 0 "" "" "" "Shop" SMB None []) = true.
Proof.
  destruct (search_matches_joined_text "payment"
              (Controller.mkTicket "7" "TCK-007" "Checkout fails"
                 "Payment gateway issue" HIGH ACTIVE "Bug" 0 None 0 0
                 "" "" "" "Shop" SMB None []))
    as (_ & _ & H).
  destruct (H asciiStrings_lower) as [_ Hex].
  apply Hex. by exists "", "".
Defined.

Lemma completed_then_reopened_keeps_completedAt_witness :
  let '(r1, tickets1) := Controller.updateTicket "3" completeInput env1 Controller.tickets in
  let '(r2, tickets2) := Controller.updateTicket "3" reopenInput env2 tickets1 in
  exists t1 t2,
    tickets1 !! 2%nat = Some t1 /\ data (json r1) = Some t1
    /\ status t1 = COMPLETED
    /\ completedAt t1 = Some (now env1) /\ completedAt t1 <> None
    /\ tickets2 !! 2%nat = Some t2 /\ data (json r2) = Some t2
    /\ status t2 = ACTIVE
    /\ completedAt t2 = completedAt t1.
Proof.
  apply (completed_then_reopened_keeps_completedAt Controller.tickets 2
           Controller.ticket3 "3"
           completeInput reopenInput env1 env2 ACTIVE);
    [reflexivity | reflexivity | reflexivity | discriminate].
Defined.

Lemma completedAt_stamped_iff_payload_completed_witness :
  exists t',
    snd (Controller.updateTicket "5" (TicketService.statusInput "5" COMPLETED None)
           env2 Controller.tickets) !! 4%nat = Some t'
    /\ completedAt t' = Some (now env2).
Proof.
  pose proof (completedAt_stamped_iff_payload_completed Controller.tickets 4
                Controller.ticket5 "5"
                (TicketService.statusInput "5" COMPLETED None) env2 eq_refl) as H.
  destruct (Controller.updateTicket "5" (TicketService.statusInput "5" COMPLETED None)
              env2 Controller.tickets) as [r tickets'].
  destruct H as (t' & Hi & _ & Hc & _).
  exists t'. split; [exact Hi | exact (Hc eq_refl)].
Defined.

Lemma update_keeps_id_createdAt_and_unnamed_fields_witness :
  exists t',
    snd (Controller.updateTicket "2" forgingInput env1 Controller.tickets) !! 1%nat
      = Some t'
    /\ id t' = "2" /\ createdAt t' = 1762300800000%Z /\ title t' = "Renamed"
    /\ get F_description t' = VString "Payment gateway integration issue".
Proof.
  pose proof (update_keeps_id_createdAt_and_unnamed_fields Controller.tickets 1
                Controller.ticket2 "2" forgingInput env1 eq_refl) as H.
  destruct (Controller.updateTicket "2" forgingInput env1 Controller.tickets)
    as [r tickets'] eqn:E.
  destruct H as (t' & Hi & Hr & Hid & Hcr & _ & _ & Hframe & _).
  exists t'. simpl snd. split_and!.
  - exact Hi.
  - by inversion Hid.
  - by inversion Hcr.
  - injection E as <- <-. by injection Hr as <-.
  - rewrite (Hframe F_description); done.
Defined.

Lemma create_with_empty_title_or_code_is_rejected_witness :
  exists e msg,
    ValidationError e /\ e = Error msg
    /\ TicketService.createTicket untitledInput (exampleWorld Controller.tickets)
       = (Rejected e, exampleWorld Controller.tickets)
    /\ let '(r, st', w') :=
         UseTickets.addTicket untitledInput UseTickets.initial
           (exampleWorld Controller.tickets) in
       r = None
       /\ requests w' = requests (exampleWorld Controller.tickets)
       /\ server w' = server (exampleWorld Controller.tickets)
       /\ UseTickets.tickets st' = UseTickets.tickets UseTickets.initial
       /\ UseTickets.lastError st' = Some msg.
Proof.
  apply (create_with_empty_title_or_code_is_rejected untitledInput
           UseTickets.initial (exampleWorld Controller.tickets)).
  left. right. reflexivity.
Defined.

Lemma create_applies_defaults_before_sending_witness :
  let '(r, st1, w1) :=
    UseTickets.addTicket tck100 UseTickets.initial (exampleWorld Controller.tickets) in
  let '(_, st2, w2) := UseTickets.refreshTickets st1 w1 in
  exists t,
    r = Some t /\ t ∈ UseTickets.tickets st2
    /\ ticketId t = "TCK-100" /\ title t = "X"
    /\ priority t = MEDIUM /\ status t = SCHEDULED
    /\ notes t = [] /\ tags t = [] /\ subtasks t = []
    /\ UseTickets.tickets st2 = Controller.tickets ++ [t].
Proof.
  pose proof (create_applies_defaults_before_sending tck100 UseTickets.initial
                (exampleWorld Controller.tickets) eq_refl eq_refl) as H.
  cbv zeta in H. destruct H as (_ & _ & _ & _ & _ & _ & _ & _ & _ & _ & _ & H).
  apply H; [exact asciiStrings_trim | reflexivity |].
  intros t Hin.
  repeat (apply elem_of_cons in Hin as [-> | Hin]; [discriminate |]).
  by apply elem_of_nil in Hin.
Defined.

(** C3 as stated fails for refresh: it resolves with the same value,
    [undefined], whether the fetch succeeded or failed, so its value is no
    success/failure result. *)
Lemma refresh_returns_no_result :
  ~ ReturnsResult UseTickets.refreshTickets (TicketService.fetchTickets None).
Proof.
  intros [succeeded H].
  pose proof (H UseTickets.initial (exampleWorld Controller.tickets)) as Hok.
  pose proof (H UseTickets.initial offlineWorld) as Hko.
  destruct (UseTickets.refreshTickets UseTickets.initial
              (exampleWorld Controller.tickets)) as [[[] st1] w1].
  destruct (UseTickets.refreshTickets UseTickets.initial offlineWorld)
    as [[[] st2] w2].
  simpl in Hok, Hko.
  assert (succeeded tt = true) as Htt.
  { apply Hok. by eexists. }
  apply Hko in Htt as [b Hb]. vm_compute in Hb. discriminate Hb.
Qed.

Lemma store_operations_contain_failures_witness :
  (let '(r, st', w') := UseTickets.refreshTickets loadedState offlineWorld in
   r = tt
   /\ UseTickets.tickets st' = Controller.tickets
   /\ UseTickets.lastError st' = Some "Failed to fetch"
   /\ UseTickets.loading st' = false)
  /\ (let '(r, st', w') := UseTickets.deleteTicket "1" loadedState offlineWorld in
      r = false
      /\ UseTickets.tickets st' = Controller.tickets
      /\ UseTickets.lastError st' = Some "Failed to fetch").
Proof.
  pose proof (store_operations_contain_failures loadedState offlineWorld
                (Error "Failed to fetch")) as (Hrefresh & _ & _ & Hdelete & _).
  split.
  - apply Hrefresh. reflexivity.
  - apply (Hdelete "1"). reflexivity.
Defined.

Lemma completionPercentage_of_subtasks_witness :
  (completionPercentage halfDone == 50)%Q
  /\ (completionPercentage Controller.ticket2 == 0)%Q.
Proof.
  split.
  - destruct (completionPercentage_of_subtasks halfDone) as (_ & _ & _ & H).
    apply H; reflexivity.
  - destruct (completionPercentage_of_subtasks Controller.ticket2) as (H & _).
    apply H; reflexivity.
Defined.

Lemma router_envelope_witness :
  (exists msg,
     Failure (fst (Controller.router (POST_ticket lateInput) env1 Controller.tickets)) msg
     /\ snd (Controller.router (POST_ticket lateInput) env1 Controller.tickets)
        = Controller.tickets)
  /\ statusCode (fst (Controller.router (POST_ticket lateInput) env1 Controller.tickets))
     = 500%nat
  /\ snd (Controller.router (GET_ticket "nobody") env1 Controller.tickets)
     = Controller.tickets.
Proof.
  destruct (router_envelope (POST_ticket lateInput) env1 Controller.tickets)
    as ([Hok | Hfail] & _ & _).
  - destruct Hok as (Hok & _). discriminate Hok.
  - split; [exact Hfail |]. split; [reflexivity |].
    apply (router_envelope (GET_ticket "nobody") env1 Controller.tickets).
    reflexivity.
Defined.


Lemma createTicket_outcomes_witness :
  (Controller.createTicket untitledInput env1 Controller.tickets
   = (Controller.respondError 400 "Ticket ID and title are required",
      Controller.tickets))
  /\ (Controller.createTicket lateInput env1 Controller.tickets
      = (Controller.respondError 500 "Failed to create ticket",
         Controller.tickets))
  /\ exists t,
       Controller.createTicket doneInput env1 Controller.tickets
       = (Controller.respond 201 t, Controller.tickets ++ [t])
       /\ status t = COMPLETED /\ completedAt t = None.
Proof.
  assert (Hnew : forall code, code <> "TCK-001" -> code <> "TCK-002" ->
            code <> "TCK-003" -> code <> "TCK-004" -> code <> "TCK-005" ->
            forall t, t ∈ Controller.tickets -> Some (ticketId t) <> Some code).
  { intros code H1 H2 H3 H4 H5 t Hin [= Heq].
    repeat (apply elem_of_cons in Hin as [-> | Hin]; [by subst code |]).
    by apply elem_of_nil in Hin. }
  destruct (createTicket_outcomes untitledInput env1 Controller.tickets)
    as (H1 & _ & _ & _).
  destruct (createTicket_outcomes lateInput env1 Controller.tickets)
    as (_ & _ & H3 & _).
  destruct (createTicket_outcomes doneInput env1 Controller.tickets)
    as (_ & _ & _ & H4).
  split; [apply H1; by right |].
  split.
  - apply (H3 eq_refl eq_refl (Hnew "TCK-300" ltac:(done) ltac:(done)
             ltac:(done) ltac:(done) ltac:(done)) 8640000000000001%Z);
      reflexivity.
  - destruct H4 as (t & Hrun & _ & _ & _ & _ & _ & _ & Hdone);
      [reflexivity | reflexivity | | discriminate |].
    + apply Hnew; done.
    + exists t. split_and!; try done.
      cbv in Hrun. by injection Hrun as <-.
Defined.

Lemma deleteTicket_removes_one_witness :
  (let '(response, tickets') := Controller.deleteTicket "3" env1 Controller.tickets in
   statusCode response = 200%nat
   /\ tickets' = [Controller.ticket1; Controller.ticket2;
                  Controller.ticket4; Controller.ticket5])
  /\ Controller.deleteTicket "9" env1 Controller.tickets
     = (Controller.respondError 404 "Ticket not found", Controller.tickets).
Proof.
  destruct (deleteTicket_removes_one "3" env1 Controller.tickets) as [H _].
  destruct (deleteTicket_removes_one "9" env1 Controller.tickets) as [_ H'].
  split.
  - specialize (H 2 Controller.ticket3 eq_refl).
    destruct (Controller.deleteTicket "3" env1 Controller.tickets)
      as [response tickets'].
    destruct H as (Hs & Ht & _). by split.
  - apply H'. intros t Hin.
    repeat (apply elem_of_cons in Hin as [-> | Hin]; [discriminate |]).
    by apply elem_of_nil in Hin.
Defined.

Lemma fetchTicketById_outcomes_witness :
  TicketService.fetchTicketById "4" (exampleWorld Controller.tickets)
  = (Resolved Controller.ticket4,
     sent (GET_ticket "4") Controller.tickets (exampleWorld Controller.tickets)).
Proof.
  destruct (fetchTicketById_outcomes "4" (exampleWorld Controller.tickets)
              eq_refl eq_refl)
    as [H _].
  exact (H 3 Controller.ticket4 eq_refl).
Defined.

Lemma update_applies_named_fields_witness :
  exists t',
    snd (Controller.updateTicket "2" renameInput env1 Controller.tickets) !! 1%nat
    = Some t'
    /\ title t' = "Fix checkout" /\ priority t' = LOW /\ assignedTo t' = None
    /\ updatedAt t' = now env1.
Proof.
  pose proof (update_applies_named_fields Controller.tickets 1 Controller.ticket2
                "2" renameInput env1 eq_refl) as H.
  destruct (Controller.updateTicket "2" renameInput env1 Controller.tickets)
    as [r tickets'].
  destruct H as (t' & Hi & _ & Hset & Hup).
  exists t'. split_and!; try done.
  - pose proof (Hset F_title _ eq_refl eq_refl) as H. by injection H.
  - pose proof (Hset F_priority _ eq_refl eq_refl) as H. by injection H.
  - pose proof (Hset F_assignedTo _ eq_refl eq_refl) as H. by injection H.
Defined.

Lemma router_keeps_time_order_witness :
  TimeOrdered
    (snd (Controller.router (PUT_ticket "2" renameInput) env1 Controller.tickets)).
Proof.
  apply (router_keeps_time_order (PUT_ticket "2" renameInput) env1 Controller.tickets).
  - intros t Hin.
    repeat (apply elem_of_cons in Hin as [-> | Hin]; [by vm_compute |]).
    by apply elem_of_nil in Hin.
  - intros t Hin.
    repeat (apply elem_of_cons in Hin as [-> | Hin]; [by vm_compute |]).
    by apply elem_of_nil in Hin.
Defined.

Lemma router_keeps_unique_ids_witness :
  UniqueIds (snd (Controller.router (POST_ticket tck100) env1 Controller.tickets)).
Proof.
  apply (router_keeps_unique_ids (POST_ticket tck100) env1 Controller.tickets).
  - apply (bool_decide_unpack _). by vm_compute.
  - intros body _. apply (bool_decide_unpack _). by vm_compute.
Defined.

Lemma router_keeps_unique_codes_witness :
  UniqueCodes
    (snd (Controller.router (PUT_ticket "2" renameInput) env1 Controller.tickets)).
Proof.
  apply (router_keeps_unique_codes (PUT_ticket "2" renameInput) env1
           Controller.tickets).
  - apply (bool_decide_unpack _). by vm_compute.
  - by intros i body [= _ <-].
Defined.

Lemma update_without_id_is_rejected_witness :
  UseTickets.updateTicket renameInput loadedState (exampleWorld Controller.tickets)
  = (None,
     UseTickets.setError (Some "Ticket ID is required for update") loadedState,
     exampleWorld Controller.tickets).
Proof.
  destruct (update_without_id_is_rejected renameInput loadedState
              (exampleWorld Controller.tickets)) as [Hs _]; [by left |].
  unfold UseTickets.updateTicket. by rewrite Hs.
Defined.

Lemma service_issues_one_request_witness :
  exists tickets',
    snd (TicketService.updateTicket recodeInput offlineWorld)
    = sent (PUT_ticket "2" (delete_id recodeInput)) tickets' offlineWorld
    /\ u_id (delete_id recodeInput) = None.
Proof.
  destruct (service_issues_one_request offlineWorld) as (_ & _ & H & _).
  apply (H recodeInput "2"); [reflexivity | discriminate].
Defined.

Lemma create_with_stored_code_is_rejected_witness :
  let '(r, st', w') :=
    UseTickets.addTicket duplicateInput loadedState (exampleWorld Controller.tickets) in
  r = None /\ server w' = Controller.tickets
  /\ UseTickets.tickets st' = Controller.tickets
  /\ UseTickets.lastError st' = Some "Ticket ID already exists".
Proof.
  apply (create_with_stored_code_is_rejected duplicateInput loadedState
           (exampleWorld Controller.tickets) Controller.ticket1);
    try reflexivity.
  apply list_elem_of_here.
Defined.

Lemma one_field_updates_witness :
  exists t,
    fst (TicketService.unassignTicket "1"
           (snd (TicketService.assignTicket "1" "user-9"
                   (exampleWorld Controller.tickets)))) = Resolved t
    /\ assignedTo t = None
    /\ title t = "Implement user authentication".
Proof.
  destruct (one_field_updates "1" (exampleWorld Controller.tickets) 0
              Controller.ticket1 eq_refl ltac:(discriminate) eq_refl)
    as (_ & _ & _ & H).
  destruct (H "user-9") as (t & Hrun & Hnone & Hframe).
  exists t. split_and!; try done.
  pose proof (Hframe F_title ltac:(discriminate) ltac:(discriminate)) as Ht.
  by injection Ht.
Defined.

Lemma tickets_by_status_and_priority_witness :
  fst (TicketService.getTicketsByPriority HIGH (exampleWorld Controller.tickets))
  = Resolved [Controller.ticket1; Controller.ticket5].
Proof.
  destruct (tickets_by_status_and_priority (exampleWorld Controller.tickets) eq_refl)
    as [_ H].
  rewrite (H HIGH). reflexivity.
Defined.

Lemma overdue_tickets_witness :
  fst (TicketService.getOverdueTickets (exampleWorld Controller.tickets))
  = Resolved [Controller.ticket4].
Proof.
  destruct (overdue_tickets (exampleWorld Controller.tickets) eq_refl) as [H _].
  rewrite H. reflexivity.
Defined.

Lemma store_stays_coherent_witness :
  (let '(_, st', w') :=
     UseTickets.deleteTicket "2" loadedState (exampleWorld Controller.tickets) in
   UseTickets.tickets st' = server w'
   /\ length (server w') = 4%nat)
  /\ (let '(_, st', w') :=
        UseTickets.addTicket lateInput loadedState (exampleWorld Controller.tickets) in
      UseTickets.tickets st' = server w'
      /\ UseTickets.lastError st' = Some "Failed to create ticket")
  /\ (let '(_, st', w') :=
        UseTickets.deleteTicket "2" loadedState offlineWorld in
      UseTickets.tickets st' = server w'
      /\ UseTickets.lastError st' = Some "Failed to fetch").
Proof.
  destruct (store_stays_coherent loadedState (exampleWorld Controller.tickets))
    as (Hon & _);
    [reflexivity | apply (bool_decide_unpack _); by vm_compute |].
  destruct (store_stays_coherent loadedState offlineWorld)
    as (Hoff & _);
    [reflexivity | apply (bool_decide_unpack _); by vm_compute |].
  destruct (Hon eq_refl) as (Hadd & _ & Hdel).
  destruct (Hoff eq_refl) as (_ & _ & Hdel').
  split_and!.
  - split; [apply (Hdel "2"); reflexivity | reflexivity].
  - split; [apply (Hadd lateInput) | reflexivity].
  - split; [apply (Hdel' "2"); reflexivity | reflexivity].
Defined.

(** The case in which the store and the server part: the server removes the
    ticket, the response is lost, and the store, told of a failure, keeps
    the ticket. *)
Lemma lost_response_breaks_coherence :
  answered lossyWorld = false
  /\ UseTickets.tickets loadedState = server lossyWorld
  /\ (let '(r, st', w') := UseTickets.deleteTicket "2" loadedState lossyWorld in
      r = false
      /\ UseTickets.lastError st' = Some "Failed to fetch"
      /\ Controller.ticket2 ∈ UseTickets.tickets st'
      /\ length (UseTickets.tickets st') = 5%nat
      /\ length (server w') = 4%nat
      /\ UseTickets.tickets st' <> server w').
Proof.
  split; [reflexivity |]. split; [reflexivity |].
  vm_compute. split_and!; try reflexivity.
  - apply list_elem_of_further, list_elem_of_here.
  - discriminate.
Qed.

Lemma remove_through_store_witness :
  (let '(r, st', w') :=
     UseTickets.deleteTicket "5" loadedState (exampleWorld Controller.tickets) in
   r = true
   /\ UseTickets.tickets st'
      = [Controller.ticket1; Controller.ticket2; Controller.ticket3;
         Controller.ticket4])
  /\ (let '(r, st', w') :=
        UseTickets.deleteTicket "6" loadedState (exampleWorld Controller.tickets) in
      r = false /\ UseTickets.lastError st' = Some "Ticket not found").
Proof.
  destruct (remove_through_store "5" loadedState (exampleWorld Controller.tickets))
    as [H5 _];
    [reflexivity | reflexivity | reflexivity
     | apply (bool_decide_unpack _); by vm_compute |].
  destruct (remove_through_store "6" loadedState (exampleWorld Controller.tickets))
    as [_ H6];
    [reflexivity | reflexivity | reflexivity
     | apply (bool_decide_unpack _); by vm_compute |].
  split.
  - specialize (H5 4 Controller.ticket5 eq_refl).
    destruct (UseTickets.deleteTicket "5" loadedState
                (exampleWorld Controller.tickets)) as [[r st'] w'].
    destruct H5 as (Hr & Ht & _). by split.
  - assert (Hnone : forall t, t ∈ server (exampleWorld Controller.tickets) ->
                              id t <> "6").
    { intros t Hin.
      repeat (apply elem_of_cons in Hin as [-> | Hin]; [discriminate |]).
      by apply elem_of_nil in Hin. }
    specialize (H6 Hnone).
    destruct (UseTickets.deleteTicket "6" loadedState
                (exampleWorld Controller.tickets)) as [[r st'] w'].
    destruct H6 as (Hr & _ & He & _). by split.
Defined.

Lemma handleDrop_moves_witness :
  KanbanBoard.handleDrop "7" COMPLETED 1767225600123 Controller.tickets
  = (Controller.tickets, []).
Proof.
  pose proof (handleDrop_moves "7" COMPLETED 1767225600123 Controller.tickets) as H.
  destruct (KanbanBoard.handleDrop "7" COMPLETED 1767225600123 Controller.tickets)
    as [next calls].
  destruct H as (_ & _ & _ & _ & _ & _ & _ & H).
  destruct H as [-> ->]; [|done].
  intros t Hin.
  repeat (apply elem_of_cons in Hin as [-> | Hin]; [discriminate |]).
  by apply elem_of_nil in Hin.
Defined.

Lemma drop_agrees_with_server_witness :
  let '(_, st', w') :=
    Dashboard.handleTicketUpdate "4" COMPLETED loadedState
      (exampleWorld Controller.tickets) in
  exists t,
    server w' !! 3%nat = Some t /\ status t = COMPLETED
    /\ completedAt t = Some 1767225600000%Z.
Proof.
  pose proof (drop_agrees_with_server "4" COMPLETED 1767225600123 loadedState
                (exampleWorld Controller.tickets) 3 Controller.ticket4
                eq_refl ltac:(discriminate) eq_refl) as H.
  destruct (Dashboard.handleTicketUpdate "4" COMPLETED loadedState
              (exampleWorld Controller.tickets)) as [[r st'] w'].
  destruct H as (t & Hi & _ & _ & Hf & _ & Hc).
  exists t. split_and!; try done.
  pose proof (Hf F_status ltac:(discriminate) ltac:(discriminate)) as Hs.
  by injection Hs.
Defined.

Lemma handleSubmit_outcomes_witness :
  let '(page', st', w') :=
    Dashboard.handleSubmit
      {| Dashboard.isCreateModalOpen := true; Dashboard.isSubmitting := false;
         Dashboard.formData := duplicateInput |}
      loadedState (exampleWorld Controller.tickets) in
  Dashboard.isCreateModalOpen page' = true
  /\ Dashboard.formData page' = duplicateInput
  /\ Dashboard.isSubmitting page' = false
  /\ UseTickets.tickets st' = Controller.tickets
  /\ UseTickets.lastError st' = Some "Ticket ID already exists".
Proof.
  destruct (handleSubmit_outcomes
              {| Dashboard.isCreateModalOpen := true; Dashboard.isSubmitting := false;
                 Dashboard.formData := duplicateInput |}
              loadedState (exampleWorld Controller.tickets)) as (H & _ & _).
  apply (H (Error "Ticket ID already exists")). reflexivity.
Defined.
